(** * calendar-ai-bot: the free-slot finder and the action boundary

    A shallow embedding of [calendar_service.py] (class [CalendarService]) and
    of [_execute_function] in [ai_agent.py], with the properties of the
    slot-suggestion sweep.

    Conventions of the embedding:
    - a naive [datetime] is the number of seconds of its wall clock since
      1970-01-01T00:00:00 (the gateway's timestamps have second precision),
      a [timedelta(minutes=m)] is [60 * m];
    - Python code that can raise runs in the monad [Py.result]; [try/except]
      blocks are the handlers [Py.except_HttpError] and [Py.except_Exception];
    - the standard library's [datetime.strptime], [datetime.fromisoformat] and
      [strftime], and the Google Calendar client, are interfaces (classes
      [Datetime.Lib] and [Gateway]); [Datetime.iso] is an instance for the
      canonical [YYYY-MM-DDTHH:MM:SS] shapes, used to run the scenarios;
    - the arithmetic on datetimes is exact: the [OverflowError] of a
      [datetime] outside the years 1 to 9999 is not part of the embedding, so
      the properties of [suggest_time_slots] are about the slots it returns
      and about its two runs being alike, not about its returning for every
      duration. *)

From Stdlib Require Import ZArith List String Ascii Bool Lia Sorting.Sorted Permutation.
From stdpp Require Import base option list sorting strings pretty gmap.

Local Open Scope Z_scope.
Import ListNotations.

(** ** Python exceptions as values *)

Module Py.

Inductive exc_class :=
| HttpError | KeyError | TypeError | AttributeError | ValueError | Exception_.

(** [exc_str] is what [str(e)] returns. *)
Record exception := mk_exc { exc_cls : exc_class; exc_str : string }.

Inductive result (A : Type) :=
| Return (a : A)
| Raise (e : exception).
Arguments Return {A} a.
Arguments Raise {A} e.

Definition bind {A B} (m : result A) (k : A -> result B) : result B :=
  match m with
  | Return a => k a
  | Raise e => Raise e
  end.

(** [raise Exception(msg)] *)
Definition raise_Exception {A} (msg : string) : result A :=
  Raise (mk_exc Exception_ msg).

Definition is_HttpError (e : exception) : bool :=
  match exc_cls e with HttpError => true | _ => false end.

(** [try: body  except HttpError as e: raise Exception(f"{prefix}{str(e)}")]:
    only an [HttpError] is caught, anything else goes through. *)
Definition except_HttpError {A} (prefix : string) (body : result A) : result A :=
  match body with
  | Return a => Return a
  | Raise e =>
      if is_HttpError e then raise_Exception (prefix +:+ exc_str e) else Raise e
  end.

(** [try: body  except Exception as e: handler(e)]: every exception of the
    model is an [Exception]. *)
Definition except_Exception {A} (body : result A) (handler : exception -> result A)
  : result A :=
  match body with
  | Return a => Return a
  | Raise e => handler e
  end.

(** JSON-like values: function-call arguments and returned payloads. *)
#[warnings="-register-all"]
Inductive value :=
| VNone
| VBool (b : bool)
| VInt (z : Z)
| VStr (s : string)
| VList (l : list value)
| VDict (d : list (string * value)).

End Py.

Import Py.

#[global] Instance result_ret : MRet result := @Return.
#[global] Instance result_bind : MBind result := fun A B k m => bind m k.

(** Case analysis on the calls a body sequences. *)
Ltac step_binds H :=
  repeat match type of H with
         | context [match ?c with _ => _ end] =>
             let E := fresh "E" in destruct c eqn:E; simplify_eq/=
         end.

(** ** String primitives used by the source *)

Module Str.

(** [c in s] for a one-character [c] *)
Fixpoint contains (c : ascii) (s : string) : bool :=
  match s with
  | EmptyString => false
  | String a rest => if Ascii.eqb a c then true else contains c rest
  end.

(** [s.endswith(c)] for a one-character [c] *)
Fixpoint endswith (c : ascii) (s : string) : bool :=
  match s with
  | EmptyString => false
  | String a EmptyString => Ascii.eqb a c
  | String _ rest => endswith c rest
  end.

(** [s.replace(c, by)] for a one-character [c]: every occurrence. *)
Fixpoint replace (c : ascii) (by_ : string) (s : string) : string :=
  match s with
  | EmptyString => EmptyString
  | String a rest =>
      if Ascii.eqb a c then by_ +:+ replace c by_ rest
      else String a (replace c by_ rest)
  end.

(** [s + 'Z' if not s.endswith('Z') else s] *)
Definition with_Z (s : string) : string :=
  if endswith "Z" s then s else s +:+ "Z".

End Str.

(** ** Dates and times *)

Module Datetime.

(** The three standard-library entry points the service uses.  [None] is a
    raised [ValueError]. *)
Class Lib := {
  (** [datetime.strptime(s, '%Y-%m-%d')]: midnight of the day *)
  strptime_ymd : string -> option Z;
  (** [datetime.fromisoformat(s)]: wall clock and, when present, the UTC
      offset in seconds *)
  fromisoformat : string -> option (Z * option Z);
  (** [dt.strftime('%Y-%m-%dT%H:%M:%S')] *)
  strftime : Z -> string
}.

(** [dt.replace(tzinfo=None)]: the offset is dropped, the wall clock kept. *)
Definition replace_tzinfo_None (dt : Z * option Z) : Z := fst dt.

(** [date_obj.replace(hour=h, minute=0, second=0, microsecond=0)];
    an hour outside 0..23 is a [ValueError]. *)
Definition replace_hour (dt : Z) (h : Z) : option Z :=
  if (0 <=? h) && (h <=? 23) then Some (86400 * (dt / 86400) + 3600 * h)
  else None.

(** [timedelta(minutes=m)] *)
Definition timedelta_minutes (m : Z) : Z := 60 * m.

(** *** A concrete instance for canonical ISO strings *)

Definition days_from_civil (y m d : Z) : Z :=
  let y' := if m <=? 2 then y - 1 else y in
  let era := y' / 400 in
  let yoe := y' - era * 400 in
  let mp := (m + 9) mod 12 in
  let doy := (153 * mp + 2) / 5 + d - 1 in
  let doe := yoe * 365 + yoe / 4 - yoe / 100 + doy in
  era * 146097 + doe - 719468.

Definition civil_from_days (z : Z) : Z * Z * Z :=
  let z := z + 719468 in
  let era := z / 146097 in
  let doe := z - era * 146097 in
  let yoe := (doe - doe / 1460 + doe / 36524 - doe / 146096) / 365 in
  let doy := doe - (365 * yoe + yoe / 4 - yoe / 100) in
  let mp := (5 * doy + 2) / 153 in
  let d := doy - (153 * mp + 2) / 5 + 1 in
  let m := if mp <? 10 then mp + 3 else mp - 9 in
  let y := yoe + era * 400 in
  (if m <=? 2 then y + 1 else y, m, d).

Definition is_leap (y : Z) : bool :=
  ((y mod 4 =? 0) && negb (y mod 100 =? 0)) || (y mod 400 =? 0).

Definition days_in_month (y m : Z) : Z :=
  if m =? 2 then (if is_leap y then 29 else 28)
  else if (m =? 4) || (m =? 6) || (m =? 9) || (m =? 11) then 30 else 31.

Definition digit (c : ascii) : option Z :=
  let n := Z.of_nat (nat_of_ascii c) in
  if (48 <=? n) && (n <=? 57) then Some (n - 48) else None.

(** [take_digits n s]: the number written by the first [n] characters of
    [s], all digits, and the rest of [s]. *)
Fixpoint take_digits (n : nat) (acc : Z) (s : string) : option (Z * string) :=
  match n with
  | O => Some (acc, s)
  | S n' =>
      match s with
      | EmptyString => None
      | String c rest =>
          match digit c with
          | Some d => take_digits n' (10 * acc + d) rest
          | None => None
          end
      end
  end.

Definition expect (c : ascii) (s : string) : option string :=
  match s with
  | String a rest => if Ascii.eqb a c then Some rest else None
  | EmptyString => None
  end.

(** [YYYY-MM-DD] at the head of [s]: the day number and the rest. *)
Definition parse_date (s : string) : option (Z * string) :=
  '(y, s) ← take_digits 4 0 s;
  s ← expect "-" s;
  '(m, s) ← take_digits 2 0 s;
  s ← expect "-" s;
  '(d, s) ← take_digits 2 0 s;
  if (1 <=? y) && (1 <=? m) && (m <=? 12) && (1 <=? d) && (d <=? days_in_month y m)
  then Some (days_from_civil y m d, s) else None.

(** [HH:MM:SS] at the head of [s]: the second of the day and the rest. *)
Definition parse_time (s : string) : option (Z * string) :=
  '(h, s) ← take_digits 2 0 s;
  s ← expect ":" s;
  '(mi, s) ← take_digits 2 0 s;
  s ← expect ":" s;
  '(sec, s) ← take_digits 2 0 s;
  if (h <=? 23) && (mi <=? 59) && (sec <=? 59)
  then Some (3600 * h + 60 * mi + sec, s) else None.

(** [+HH:MM] or [-HH:MM], the whole of [s]. *)
Definition parse_offset (s : string) : option Z :=
  match s with
  | String sign rest =>
      '(h, rest) ← take_digits 2 0 rest;
      rest ← expect ":" rest;
      '(mi, rest) ← take_digits 2 0 rest;
      match rest with
      | EmptyString =>
          if (h <=? 23) && (mi <=? 59) then
            if Ascii.eqb sign "+" then Some (3600 * h + 60 * mi)
            else if Ascii.eqb sign "-" then Some (- (3600 * h + 60 * mi))
            else None
          else None
      | _ => None
      end
  | EmptyString => None
  end.

Definition iso_strptime_ymd (s : string) : option Z :=
  '(day, rest) ← parse_date s;
  match rest with
  | EmptyString => Some (86400 * day)
  | _ => None
  end.

(** [YYYY-MM-DD], [YYYY-MM-DDTHH:MM:SS] and [YYYY-MM-DDTHH:MM:SS+HH:MM]. *)
Definition iso_fromisoformat (s : string) : option (Z * option Z) :=
  '(day, rest) ← parse_date s;
  match rest with
  | EmptyString => Some (86400 * day, None)
  | String _ rest =>
      '(sod, rest) ← parse_time rest;
      match rest with
      | EmptyString => Some (86400 * day + sod, None)
      | _ => off ← parse_offset rest; Some (86400 * day + sod, Some off)
      end
  end.

Definition digit_char (d : Z) : ascii := ascii_of_nat (Z.to_nat (48 + d mod 10)).

Definition two_digits (n : Z) : string :=
  String (digit_char (n / 10)) (String (digit_char n) EmptyString).

Definition four_digits (n : Z) : string :=
  String (digit_char (n / 1000)) (String (digit_char (n / 100)) (two_digits n)).

Definition iso_strftime (t : Z) : string :=
  let '(y, m, d) := civil_from_days (t / 86400) in
  let sod := t mod 86400 in
  four_digits y +:+ "-" +:+ two_digits m +:+ "-" +:+ two_digits d +:+ "T" +:+
  two_digits (sod / 3600) +:+ ":" +:+ two_digits (sod mod 3600 / 60) +:+ ":" +:+
  two_digits (sod mod 60).

Definition iso : Lib :=
  {| strptime_ymd := iso_strptime_ymd;
     fromisoformat := iso_fromisoformat;
     strftime := iso_strftime |}.

End Datetime.

(** ** The calendar gateway (the Google Calendar client) *)

(** [{'dateTime': ..., 'date': ...}], either key possibly absent *)
Record time_field := { dateTime : option string; date : option string }.

(** An event resource; [None] is an absent key. *)
Record event := {
  ev_id : option string;
  ev_summary : option string;
  ev_start : option time_field;
  ev_end : option time_field;
  ev_description : option string;
  ev_status : option string;
  ev_htmlLink : option string
}.

(** The response of [events().list(...).execute()] *)
Record events_result := { items : option (list event) }.

(** The arguments of [events().list]; [calendarId='primary'],
    [singleEvents=True] and [orderBy='startTime'] are the same in every call. *)
Record list_request := {
  timeMin : string;
  timeMax : option string;
  maxResults : option Z
}.

(** The body of [events().insert] *)
Record event_body := {
  body_summary : string;
  body_description : string;
  body_start : string;
  body_end : string;
  body_attendees : option (list string)
}.

Class Gateway := {
  events_list : list_request -> result events_result;
  events_insert : event_body -> result event;
  (** [datetime.utcnow().isoformat()] at the time of the call *)
  utcnow_isoformat : string
}.

(** ** [calendar_service.py] *)

Module CalendarService.

(** [d[key]] on a dictionary where the key may be absent *)
Definition getitem {A} (key : string) (o : option A) : result A :=
  match o with
  | Some a => Return a
  | None => Raise (mk_exc KeyError ("'" +:+ key +:+ "'"))
  end.

(** [tf.get('dateTime', tf.get('date'))]; [None] is Python's [None]. *)
Definition dateTime_or_date (tf : time_field) : option string :=
  match dateTime tf with
  | Some s => Some s
  | None => date tf
  end.

(** An element of the list [get_busy_times] returns. *)
Record busy_time := {
  b_start : option string;
  b_end : option string;
  b_summary : string
}.

(** A suggested slot, before it is formatted. *)
Record slot := {
  slot_start : Z;
  slot_end : Z;
  duration_minutes : Z
}.

(** A suggested slot as returned: [{'start', 'end', 'duration_minutes'}] *)
Record slot_dict := {
  sd_start : string;
  sd_end : string;
  sd_duration_minutes : Z
}.

(** The dictionary [create_event] returns. *)
Record created_event := {
  ce_id : string;
  ce_summary : string;
  ce_start : string;
  ce_end : string;
  ce_html_link : string;
  ce_status : string
}.

(** An element of the list [get_events] returns. *)
Record formatted_event := {
  fe_id : string;
  fe_summary : string;
  fe_start : option string;
  fe_end : option string;
  fe_description : string;
  fe_status : string
}.

(** *** The sweep (lines 147-175), on normalized busy periods *)

(** [busy_periods.sort(key=lambda x: x[0])]: a stable sort on the start. *)
Fixpoint insert_by_start (p : Z * Z) (l : list (Z * Z)) : list (Z * Z) :=
  match l with
  | [] => [p]
  | q :: rest =>
      if fst p <=? fst q then p :: q :: rest else q :: insert_by_start p rest
  end.

Definition sort_by_start (l : list (Z * Z)) : list (Z * Z) :=
  foldr insert_by_start [] l.

(** The slot appended at [current_time] *)
Definition slot_at (current_time duration_minutes : Z) : slot :=
  {| slot_start := current_time;
     slot_end := current_time + Datetime.timedelta_minutes duration_minutes;
     duration_minutes := duration_minutes |}.

(** The loop [for busy_start, busy_end in busy_periods] with its two
    variables [current_time] and [available_slots]. *)
Fixpoint sweep (duration_minutes : Z) (busy_periods : list (Z * Z))
    (current_time : Z) (available_slots : list slot) : Z * list slot :=
  match busy_periods with
  | [] => (current_time, available_slots)
  | (busy_start, busy_end) :: rest =>
      let available_slots :=
        if current_time + Datetime.timedelta_minutes duration_minutes <=? busy_start
        then available_slots ++ [slot_at current_time duration_minutes]
        else available_slots in
      sweep duration_minutes rest (Z.max current_time busy_end) available_slots
  end.

(** [available_slots] just before the [return]: the sort, the sweep from
    [start_of_day] and the check after the last busy period. *)
Definition candidate_slots (start_of_day end_of_day : Z)
    (busy_periods : list (Z * Z)) (duration_minutes : Z) : list slot :=
  let '(current_time, available_slots) :=
    sweep duration_minutes (sort_by_start busy_periods) start_of_day [] in
  if current_time + Datetime.timedelta_minutes duration_minutes <=? end_of_day
  then available_slots ++ [slot_at current_time duration_minutes]
  else available_slots.

(** [available_slots[:5]] *)
Definition first_five (start_of_day end_of_day : Z)
    (busy_periods : list (Z * Z)) (duration_minutes : Z) : list slot :=
  take 5 (candidate_slots start_of_day end_of_day busy_periods duration_minutes).

Section Service.
Context {lib : Datetime.Lib} {gw : Gateway}.

(** [check_availability] *)
Definition check_availability (start_time end_time : string) : result bool :=
  except_HttpError "Failed to check availability: " (
    let time_min := Str.with_Z start_time in
    let time_max := Str.with_Z end_time in
    events_result ← events_list
      {| timeMin := time_min; timeMax := Some time_max; maxResults := None |};
    let events := default [] (items events_result) in
    mret (Nat.eqb (length events) 0)).

(** The body of the loop of [get_busy_times] *)
Definition busy_of_event (ev : event) : result busy_time :=
  s ← getitem "start" (ev_start ev);
  e ← getitem "end" (ev_end ev);
  mret {| b_start := dateTime_or_date s;
          b_end := dateTime_or_date e;
          b_summary := default "Busy" (ev_summary ev) |}.

Fixpoint busy_of_events (events : list event) (busy_times : list busy_time)
  : result (list busy_time) :=
  match events with
  | [] => mret busy_times
  | ev :: rest =>
      b ← busy_of_event ev;
      busy_of_events rest (busy_times ++ [b])
  end.

(** [get_busy_times] *)
Definition get_busy_times (date : string) : result (list busy_time) :=
  except_HttpError "Failed to get busy times: " (
    let time_min := date +:+ "T00:00:00Z" in
    let time_max := date +:+ "T23:59:59Z" in
    events_result ← events_list
      {| timeMin := time_min; timeMax := Some time_max; maxResults := None |};
    let events := default [] (items events_result) in
    busy_of_events events []).

(** [datetime.fromisoformat(s.replace('Z', '+00:00')).replace(tzinfo=None)];
    [s] is [None] when the dictionary holds Python's [None]. *)
Definition parse_naive (what : string) (s : option string) : result Z :=
  match s with
  | None =>
      Raise (mk_exc AttributeError "'NoneType' object has no attribute 'replace'")
  | Some s =>
      match Datetime.fromisoformat (Str.replace "Z" "+00:00" s) with
      | Some dt => Return (Datetime.replace_tzinfo_None dt)
      | None => Raise (mk_exc ValueError ("Invalid isoformat string: " +:+ what))
      end
  end.

(** The [try] block of the normalization loop (lines 137-143):
    [Return (Some p)] appends [p], [Return None] is the [continue] of an
    all-day entry. *)
Definition normalize_body (busy : busy_time) : result (option (Z * Z)) :=
  match b_start busy with
  | None =>
      Raise (mk_exc TypeError "argument of type 'NoneType' is not iterable")
  | Some s =>
      if Str.contains "T" s then
        start ← parse_naive "start" (b_start busy);
        end_ ← parse_naive "end" (b_end busy);
        mret (Some (start, end_))
      else mret None
  end.

(** One turn of the loop with its [except Exception: continue]. *)
Definition normalize_step (busy_periods : list (Z * Z)) (busy : busy_time)
  : list (Z * Z) :=
  match normalize_body busy with
  | Return (Some p) => busy_periods ++ [p]
  | Return None => busy_periods
  | Raise _ => busy_periods
  end.

(** [busy_periods] after the loop of lines 134-145 *)
Definition normalize (busy_times : list busy_time) : list (Z * Z) :=
  fold_left normalize_step busy_times [].

Definition format_slot (s : slot) : slot_dict :=
  {| sd_start := Datetime.strftime (slot_start s);
     sd_end := Datetime.strftime (slot_end s);
     sd_duration_minutes := duration_minutes s |}.

Definition value_error {A} (o : option A) (msg : string) : result A :=
  match o with
  | Some a => Return a
  | None => Raise (mk_exc ValueError msg)
  end.

(** The day's boundaries (lines 129-131) *)
Definition day_bounds (date : string) (preferred_start_hour preferred_end_hour : Z)
  : result (Z * Z) :=
  date_obj ← value_error (Datetime.strptime_ymd date)
               "time data does not match format '%Y-%m-%d'";
  start_of_day ← value_error (Datetime.replace_hour date_obj preferred_start_hour)
                   "hour must be in 0..23";
  end_of_day ← value_error (Datetime.replace_hour date_obj preferred_end_hour)
                 "hour must be in 0..23";
  mret (start_of_day, end_of_day).

(** Lines 126-175 of [suggest_time_slots], from the busy times on.  The
    source formats each slot when it appends it; formatting is a map over
    the emitted datetimes and is applied here to the final list. *)
Definition slots_for (busy_times : list busy_time) (date : string)
    (duration_minutes preferred_start_hour preferred_end_hour : Z)
  : result (list slot_dict) :=
  '(start_of_day, end_of_day) ←
    day_bounds date preferred_start_hour preferred_end_hour;
  mret (format_slot <$>
          first_five start_of_day end_of_day (normalize busy_times) duration_minutes).

(** [suggest_time_slots] *)
Definition suggest_time_slots (date : string)
    (duration_minutes preferred_start_hour preferred_end_hour : Z)
  : result (list slot_dict) :=
  except_Exception (
    busy_times ← get_busy_times date;
    slots_for busy_times date duration_minutes preferred_start_hour preferred_end_hour)
  (fun e => raise_Exception ("Failed to suggest time slots: " +:+ exc_str e)).

(** [create_event] *)
Definition create_event (summary start_time end_time description attendee_email : string)
  : result created_event :=
  except_HttpError "Failed to create event: " (
    let event :=
      {| body_summary := summary;
         body_description := description;
         body_start := Str.with_Z start_time;
         body_end := Str.with_Z end_time;
         body_attendees :=
           if String.eqb attendee_email "" then None else Some [attendee_email] |} in
    created ← events_insert event;
    id ← getitem "id" (ev_id created);
    summary ← getitem "summary" (ev_summary created);
    s ← getitem "start" (ev_start created);
    s ← getitem "dateTime" (dateTime s);
    e ← getitem "end" (ev_end created);
    e ← getitem "dateTime" (dateTime e);
    status ← getitem "status" (ev_status created);
    mret {| ce_id := id; ce_summary := summary; ce_start := s; ce_end := e;
            ce_html_link := default "" (ev_htmlLink created);
            ce_status := status |}).

(** The body of the loop of [get_events] *)
Definition format_event (ev : event) : result formatted_event :=
  s ← getitem "start" (ev_start ev);
  e ← getitem "end" (ev_end ev);
  id ← getitem "id" (ev_id ev);
  mret {| fe_id := id;
          fe_summary := default "No Title" (ev_summary ev);
          fe_start := dateTime_or_date s;
          fe_end := dateTime_or_date e;
          fe_description := default "" (ev_description ev);
          fe_status := default "confirmed" (ev_status ev) |}.

Fixpoint format_events (events : list event) (formatted_events : list formatted_event)
  : result (list formatted_event) :=
  match events with
  | [] => mret formatted_events
  | ev :: rest =>
      f ← format_event ev;
      format_events rest (formatted_events ++ [f])
  end.

(** [get_events] *)
Definition get_events (max_results : Z) : result (list formatted_event) :=
  except_HttpError "Failed to get events: " (
    let now := utcnow_isoformat +:+ "Z" in
    events_result ← events_list
      {| timeMin := now; timeMax := None; maxResults := Some max_results |};
    let events := default [] (items events_result) in
    format_events events []).

End Service.

End CalendarService.

(** ** [ai_agent.py]: the action boundary *)

Module CalendarAIAgent.
Import CalendarService.

(** [arguments[key]] *)
Definition arg (arguments : gmap string value) (key : string) : result value :=
  getitem key (arguments !! key).

(** [arguments.get(key, d)] *)
Definition arg_get (arguments : gmap string value) (key : string) (d : value) : value :=
  default d (arguments !! key).

(** The callee uses the argument as a [str] (resp. an [int]); a JSON value
    of another type makes it raise, which is modelled where the value is
    handed over. *)
Definition as_str (v : value) : result string :=
  match v with
  | VStr s => Return s
  | _ => Raise (mk_exc TypeError "a str is required")
  end.

Definition as_int (v : value) : result Z :=
  match v with
  | VInt z => Return z
  | _ => Raise (mk_exc TypeError "an int is required")
  end.

Definition opt_str (o : option string) : value :=
  match o with
  | Some s => VStr s
  | None => VNone
  end.

Definition value_of_slot (s : slot_dict) : value :=
  VDict [("start", VStr (sd_start s)); ("end", VStr (sd_end s));
         ("duration_minutes", VInt (sd_duration_minutes s))].

Definition value_of_created (e : created_event) : value :=
  VDict [("id", VStr (ce_id e)); ("summary", VStr (ce_summary e));
         ("start", VStr (ce_start e)); ("end", VStr (ce_end e));
         ("html_link", VStr (ce_html_link e)); ("status", VStr (ce_status e))].

Definition value_of_formatted (e : formatted_event) : value :=
  VDict [("id", VStr (fe_id e)); ("summary", VStr (fe_summary e));
         ("start", opt_str (fe_start e)); ("end", opt_str (fe_end e));
         ("description", VStr (fe_description e)); ("status", VStr (fe_status e))].

(** [{"success": True, key: payload, "message": message}] *)
Definition success_dict (key : string) (payload : value) (message : string)
  : gmap string value :=
  <["success" := VBool true]> (<[key := payload]> (<["message" := VStr message]> ∅)).

(** [{"success": False, "error": error}] *)
Definition failure_dict (error : string) : gmap string value :=
  <["success" := VBool false]> (<["error" := VStr error]> ∅).

Section Agent.
Context {lib : Datetime.Lib} {gw : Gateway}.

(** The [try] block of [_execute_function] *)
Definition execute_body (function_name : string) (arguments : gmap string value)
  : result (gmap string value) :=
  if String.eqb function_name "check_availability" then
    start_time ← arg arguments "start_time";
    end_time ← arg arguments "end_time";
    start_time ← as_str start_time;
    end_time ← as_str end_time;
    is_available ← check_availability start_time end_time;
    mret (success_dict "available" (VBool is_available)
            ("Time slot is " +:+
             (if is_available : bool then "available" else "not available")))
  else if String.eqb function_name "suggest_time_slots" then
    date ← arg arguments "date";
    date ← as_str date;
    duration_minutes ← as_int (arg_get arguments "duration_minutes" (VInt 60));
    preferred_start_hour ← as_int (arg_get arguments "preferred_start_hour" (VInt 9));
    preferred_end_hour ← as_int (arg_get arguments "preferred_end_hour" (VInt 17));
    slots ← suggest_time_slots date duration_minutes
              preferred_start_hour preferred_end_hour;
    mret (success_dict "slots" (VList (value_of_slot <$> slots))
            ("Found " +:+ pretty (length slots) +:+ " available time slots"))
  else if String.eqb function_name "create_appointment" then
    summary ← arg arguments "summary";
    start_time ← arg arguments "start_time";
    end_time ← arg arguments "end_time";
    summary ← as_str summary;
    start_time ← as_str start_time;
    end_time ← as_str end_time;
    description ← as_str (arg_get arguments "description" (VStr ""));
    attendee_email ← as_str (arg_get arguments "attendee_email" (VStr ""));
    event ← create_event summary start_time end_time description attendee_email;
    mret (success_dict "event" (value_of_created event)
            "Appointment created successfully")
  else if String.eqb function_name "get_upcoming_events" then
    max_results ← as_int (arg_get arguments "max_results" (VInt 10));
    events ← get_events max_results;
    mret (success_dict "events" (VList (value_of_formatted <$> events))
            ("Retrieved " +:+ pretty (length events) +:+ " upcoming events"))
  else
    mret (failure_dict ("Unknown function: " +:+ function_name)).

(** [_execute_function]: the body under [except Exception as e] *)
Definition _execute_function (function_name : string) (arguments : gmap string value)
  : result (gmap string value) :=
  except_Exception (execute_body function_name arguments)
    (fun e => mret (failure_dict (exc_str e))).

End Agent.

End CalendarAIAgent.

(** ** The vocabulary of the specification *)

Module SlotSpec.
Import CalendarService.

(** The half-open slot [[slot_start, slot_end)] lies in the working window
    [[start_of_day, end_of_day)]. *)
Definition within_window (start_of_day end_of_day : Z) (s : slot) : Prop :=
  start_of_day <= slot_start s ∧ slot_end s <= end_of_day.

(** The slot and the busy period [(busy_start, busy_end)] share time. *)
Definition overlaps_busy (s : slot) (p : Z * Z) : Prop :=
  slot_start s < snd p ∧ fst p < slot_end s.

(** Two slots share no time. *)
Definition disjoint (x y : slot) : Prop :=
  slot_end x <= slot_start y ∨ slot_end y <= slot_start x.

Definition pairwise_disjoint (l : list slot) : Prop :=
  ∀ (i j : nat) x y, i ≠ j → l !! i = Some x → l !! j = Some y → disjoint x y.

Definition chronological (l : list slot) : Prop :=
  ∀ (i j : nat) x y, (i < j)%nat → l !! i = Some x → l !! j = Some y →
    slot_start x < slot_start y.

(** Earliest first, equal starts allowed. *)
Definition earliest_first (l : list slot) : Prop :=
  ∀ (i j : nat) x y, (i < j)%nat → l !! i = Some x → l !! j = Some y →
    slot_start x <= slot_start y.

Definition exact_length (duration_minutes : Z) (s : slot) : Prop :=
  slot_end s - slot_start s = Datetime.timedelta_minutes duration_minutes.

(** Section 8, first property: pairwise non-overlapping, chronologically
    ordered, each of length exactly [duration_minutes]. *)
Definition well_spaced (duration_minutes : Z) (l : list slot) : Prop :=
  pairwise_disjoint l ∧ chronological l ∧ Forall (exact_length duration_minutes) l.

(** [x] is over when [y] begins. *)
Definition before (x y : slot) : Prop := slot_end x <= slot_start y.

(** [x] begins no later than [y]. *)
Definition not_later (x y : slot) : Prop := slot_start x <= slot_start y.

(** A busy period whose start is not after its end. *)
Definition well_formed (p : Z * Z) : Prop := fst p <= snd p.

(** The order the sort establishes. *)
Definition start_le (p q : Z * Z) : Prop := fst p <= fst q.

(** *** The variant with an explicit merge

    Overlapping (or touching) busy periods of a list sorted by start are
    merged into one period, from the first start to the latest end. *)
Fixpoint merge_into (s e : Z) (rest : list (Z * Z)) : list (Z * Z) :=
  match rest with
  | [] => [(s, e)]
  | (s', e') :: rest' =>
      if s' <=? e then merge_into s (Z.max e e') rest'
      else (s, e) :: merge_into s' e' rest'
  end.

Definition merge_overlapping (sorted : list (Z * Z)) : list (Z * Z) :=
  match sorted with
  | [] => []
  | (s, e) :: rest => merge_into s e rest
  end.

(** [p] is over before [q] begins. *)
Definition separated (p q : Z * Z) : Prop := snd p < fst q.

(** The instant [t] is busy. *)
Definition covered (l : list (Z * Z)) (t : Z) : Prop :=
  ∃ p, p ∈ l ∧ fst p <= t < snd p.

(** The sweep of [candidate_slots] over the merged periods. *)
Definition candidate_slots_merged (start_of_day end_of_day : Z)
    (busy_periods : list (Z * Z)) (duration_minutes : Z) : list slot :=
  let '(current_time, available_slots) :=
    sweep duration_minutes (merge_overlapping (sort_by_start busy_periods))
      start_of_day [] in
  if current_time + Datetime.timedelta_minutes duration_minutes <=? end_of_day
  then available_slots ++ [slot_at current_time duration_minutes]
  else available_slots.

(** The contract [findSlots(..., maxResults)] of the specification: the
    source's slice with the cap as an argument ([first_five] is the cap 5). *)
Definition findSlots (start_of_day end_of_day : Z) (busy_periods : list (Z * Z))
    (duration_minutes : Z) (maxResults : nat) : list slot :=
  take maxResults (candidate_slots start_of_day end_of_day busy_periods duration_minutes).

(** *** Entries the normalization drops *)
Section Entries.
Context {lib : Datetime.Lib}.

(** The timestamp is a string that [fromisoformat] accepts. *)
Definition parses (o : option string) : bool :=
  match o with
  | Some s => bool_decide (is_Some (Datetime.fromisoformat (Str.replace "Z" "+00:00" s)))
  | None => false
  end.

(** A date-only entry: no time of day in the start. *)
Definition all_day (b : busy_time) : bool :=
  match b_start b with
  | Some s => negb (Str.contains "T" s)
  | None => false
  end.

Definition unparsable (b : busy_time) : bool :=
  negb (parses (b_start b)) || negb (parses (b_end b)).

Definition malformed (b : busy_time) : bool := all_day b || unparsable b.
End Entries.

End SlotSpec.

(** ** The two loop variables of the sweep, separately *)

Module Sweep.
Import CalendarService.

(** [current_time] after the loop *)
Fixpoint cursor (busy_periods : list (Z * Z)) (current_time : Z) : Z :=
  match busy_periods with
  | [] => current_time
  | (_, busy_end) :: rest => cursor rest (Z.max current_time busy_end)
  end.

(** The slots the loop appends *)
Fixpoint emitted (duration_minutes : Z) (busy_periods : list (Z * Z))
    (current_time : Z) : list slot :=
  match busy_periods with
  | [] => []
  | (busy_start, busy_end) :: rest =>
      (if current_time + Datetime.timedelta_minutes duration_minutes <=? busy_start
       then [slot_at current_time duration_minutes] else [])
      ++ emitted duration_minutes rest (Z.max current_time busy_end)
  end.

(** The check after the last busy period *)
Definition tail (end_of_day duration_minutes current_time : Z) : list slot :=
  if current_time + Datetime.timedelta_minutes duration_minutes <=? end_of_day
  then [slot_at current_time duration_minutes] else [].

End Sweep.

(** ** Gateways and entries for the scenarios *)

Module Scenario.
Import CalendarService.

Definition timed (s e : string) : event :=
  {| ev_id := Some "evt"; ev_summary := Some "Meeting";
     ev_start := Some {| dateTime := Some s; date := None |};
     ev_end := Some {| dateTime := Some e; date := None |};
     ev_description := None; ev_status := Some "confirmed"; ev_htmlLink := None |}.

Definition whole_day (s e : string) : event :=
  {| ev_id := Some "day"; ev_summary := Some "Holiday";
     ev_start := Some {| dateTime := None; date := Some s |};
     ev_end := Some {| dateTime := None; date := Some e |};
     ev_description := None; ev_status := Some "confirmed"; ev_htmlLink := None |}.

(** A calendar that holds [events] and accepts no insertion. *)
Definition calendar (events : list event) : Gateway :=
  {| events_list := fun _ => Return {| items := Some events |};
     events_insert := fun _ => Raise (mk_exc HttpError "403 Forbidden");
     utcnow_isoformat := "2024-01-15T08:00:00" |}.

(** A calendar whose backend is down. *)
Definition broken : Gateway :=
  {| events_list := fun _ => Raise (mk_exc HttpError "503 Service Unavailable");
     events_insert := fun _ => Raise (mk_exc HttpError "503 Service Unavailable");
     utcnow_isoformat := "2024-01-15T08:00:00" |}.

Definition busy (s e : string) : busy_time :=
  {| b_start := Some s; b_end := Some e; b_summary := "Busy" |}.

(** Seconds since the epoch of [2024-01-15T00:00:00] *)
Definition day : Z := 86400 * Datetime.days_from_civil 2024 1 15.

(** [hh:mm] of that day *)
Definition at_ (hh mm : Z) : Z := day + 3600 * hh + 60 * mm.

End Scenario.

(** ** [ai_agent.py]: one turn of the conversation *)

Module Conversation.
Import CalendarService CalendarAIAgent.

(** [message.function_call]: the name and the arguments, a JSON text *)
Record function_call := { fc_name : string; fc_arguments : string }.

(** The message of the first choice of a completion; [msg_content] may be
    Python's [None]. *)
Record llm_message := {
  msg_content : option string;
  msg_function_call : option function_call
}.

(** An element of [messages] *)
Record chat_message := {
  cm_role : string;
  cm_content : option string;
  cm_name : option string;
  cm_function_call : option function_call
}.

Class Client := {
  (** [client.chat.completions.create(model="gpt-4o", messages=messages, ...,
      temperature=0.7).choices[0].message]; the flag tells whether
      [functions] and [function_call="auto"] are passed. *)
  chat_create : list chat_message -> bool -> result llm_message;
  (** [json.loads] *)
  json_loads : string -> result value;
  (** [json.dumps] of a result dictionary *)
  json_dumps : gmap string value -> string;
  (** [datetime.now().strftime('%Y-%m-%d')] *)
  now_ymd : string
}.

Definition system_prompt (today : string) : string :=
  "You are a helpful AI assistant for booking appointments on Google Calendar. 
                    Your role is to help users schedule appointments by:
                    
                    1. Understanding their scheduling needs and preferences
                    2. Checking calendar availability
                    3. Suggesting suitable time slots
                    4. Confirming and creating appointments
                    5. Providing information about existing appointments
                    
                    Guidelines:
                    - Be conversational and friendly
                    - Ask clarifying questions when needed (date, time preferences, duration, purpose)
                    - Use function calls to interact with the calendar
                    - Always confirm details before creating appointments
                    - Handle errors gracefully and provide helpful alternatives
                    - Today's date is " +:+ today +:+ "
                    
                    When users mention times, try to be flexible with formats but always convert to ISO format for function calls.
                    Be proactive in suggesting alternatives if requested times are not available.".

Definition plain_message (role : string) (content : option string) : chat_message :=
  {| cm_role := role; cm_content := content; cm_name := None;
     cm_function_call := None |}.

Definition value_of_call (fc : function_call) : value :=
  VDict [("name", VStr (fc_name fc)); ("arguments", VStr (fc_arguments fc))].

Definition value_of_message (m : llm_message) : value :=
  VDict [("content", opt_str (msg_content m));
         ("function_call",
          match msg_function_call m with
          | Some fc => value_of_call fc
          | None => VNone
          end)].

(** What the [try] block of [_execute_function] does with arguments that are
    no dictionary: the first [arguments[...]] or [arguments.get] raises (the
    text of the error is the interpreter's); an unknown action reads no
    argument. *)
Definition execute_no_dict (function_name : string) : result (gmap string value) :=
  if String.eqb function_name "check_availability"
     || String.eqb function_name "suggest_time_slots"
     || String.eqb function_name "create_appointment"
  then Raise (mk_exc TypeError "arguments is not subscriptable by a key")
  else if String.eqb function_name "get_upcoming_events"
  then Raise (mk_exc AttributeError "arguments has no attribute 'get'")
  else mret (failure_dict ("Unknown function: " +:+ function_name)).

Section Turn.
Context {lib : Datetime.Lib} {gw : Gateway} {client : Client}.

(** [self._execute_function(function_name, function_args)] on what
    [json.loads] gave; in a JSON object a repeated key keeps its last value. *)
Definition execute_value (function_name : string) (function_args : value)
  : result (gmap string value) :=
  match function_args with
  | VDict d => _execute_function function_name (list_to_map (reverse d))
  | _ => except_Exception (execute_no_dict function_name)
           (fun e => mret (failure_dict (exc_str e)))
  end.

(** The branch [if hasattr(message, 'function_call') and message.function_call]:
    the final content and [function_results]. *)
Definition with_function_call (messages : list chat_message) (message : llm_message)
    (fc : function_call) : result (option string * list value) :=
  let function_name := fc_name fc in
  function_args ← json_loads (fc_arguments fc);
  result_ ← execute_value function_name function_args;
  let function_results :=
    [VDict [("function", VStr function_name); ("arguments", function_args);
            ("result", VDict (map_to_list result_))]] in
  let messages :=
    messages ++
    [ {| cm_role := "assistant"; cm_content := msg_content message; cm_name := None;
         cm_function_call := Some fc |};
      {| cm_role := "function"; cm_content := Some (json_dumps result_);
         cm_name := Some function_name; cm_function_call := None |} ] in
  final_message ← chat_create messages false;
  mret (msg_content final_message, function_results).

(** The [try] block of [process_message] *)
Definition process_body (user_message : string) (conversation_history : list chat_message)
  : result (gmap string value) :=
  let messages :=
    plain_message "system" (Some (system_prompt now_ymd))
    :: conversation_history ++ [plain_message "user" (Some user_message)] in
  message ← chat_create messages true;
  '(final_content, function_results) ←
    match msg_function_call message with
    | Some fc => with_function_call messages message fc
    | None => mret (msg_content message, [])
    end;
  mret (<["success" := VBool true]>
          (<["response" := opt_str final_content]>
             (<["function_calls" := VList function_results]>
                (<["raw_message" := value_of_message message]> ∅)))).

(** [process_message] *)
Definition process_message (user_message : string) (conversation_history : list chat_message)
  : result (gmap string value) :=
  except_Exception (process_body user_message conversation_history)
    (fun e =>
       mret (<["success" := VBool false]>
               (<["error" := VStr (exc_str e)]>
                  (<["response" :=
                       VStr ("I apologize, but I encountered an error: " +:+ exc_str e
                             +:+ ". Please try again.")]> ∅)))).

End Turn.

End Conversation.

(** ** What the gateway's events look like to the service *)

Module Views.
Import CalendarService.

(** The event carries its two time fields. *)
Definition has_times (ev : event) : Prop :=
  is_Some (ev_start ev) ∧ is_Some (ev_end ev).

(** The busy time of an event. *)
Definition busy_view (ev : event) : busy_time :=
  {| b_start := ev_start ev ≫= dateTime_or_date;
     b_end := ev_end ev ≫= dateTime_or_date;
     b_summary := default "Busy" (ev_summary ev) |}.

(** The upcoming event of an event with the identifier [id]. *)
Definition formatted_view (ev : event) (id : string) : formatted_event :=
  {| fe_id := id;
     fe_summary := default "No Title" (ev_summary ev);
     fe_start := ev_start ev ≫= dateTime_or_date;
     fe_end := ev_end ev ≫= dateTime_or_date;
     fe_description := default "" (ev_description ev);
     fe_status := default "confirmed" (ev_status ev) |}.

(** The event carries what [get_events] reads. *)
Definition listable (ev : event) : Prop :=
  has_times ev ∧ is_Some (ev_id ev).

(** An event of whole days: no [dateTime], and dates without a time of day. *)
Definition whole_days (ev : event) : Prop :=
  ∃ s e ds,
    ev_start ev = Some s ∧ ev_end ev = Some e ∧
    dateTime s = None ∧ date s = Some ds ∧ Str.contains "T" ds = false.

(** The busy period [p] is one of [busy] and [t] is the end of it. *)
Definition ends_at (busy : list (Z * Z)) (t : Z) : Prop :=
  ∃ p, p ∈ busy ∧ snd p = t.

(** [[t, t + duration)] is in the window and shares no time with a busy
    period. *)
Definition free_gap (start_of_day end_of_day : Z) (busy : list (Z * Z))
    (duration_minutes t : Z) : Prop :=
  start_of_day <= t ∧
  t + Datetime.timedelta_minutes duration_minutes <= end_of_day ∧
  ∀ p, p ∈ busy →
    ¬ (t < snd p ∧ fst p < t + Datetime.timedelta_minutes duration_minutes).

End Views.

(** ** A scripted model for the conversation *)

Module ChatScenario.
Import CalendarService CalendarAIAgent Conversation.

(** The model asks for [call] when it is offered the functions and answers
    [answer] when it is not; the arguments decode to [arguments]. *)
Definition scripted (call : option function_call) (arguments : result value)
    (answer : string) : Client :=
  {| chat_create := fun _ with_functions =>
       if with_functions
       then Return {| msg_content := None; msg_function_call := call |}
       else Return {| msg_content := Some answer; msg_function_call := None |};
     json_loads := fun _ => arguments;
     json_dumps := fun _ => "{}";
     now_ymd := "2024-01-15" |}.

(** An event the listing returns without its [start]. *)
Definition without_start : event :=
  {| ev_id := Some "odd"; ev_summary := None; ev_start := None;
     ev_end := Some {| dateTime := Some "2024-01-15T11:00:00Z"; date := None |};
     ev_description := None; ev_status := None; ev_htmlLink := None |}.

End ChatScenario.

(** * Properties *)

(** ** The sort *)

Module SortFacts.
Import CalendarService SlotSpec.

Lemma insert_by_start_perm p l : insert_by_start p l ≡ₚ p :: l.
Proof.
  induction l as [|q l IH]; simpl; [done|].
  destruct (fst p <=? fst q); [done|].
  rewrite IH. apply Permutation_swap.
Qed.

Lemma sort_by_start_perm l : sort_by_start l ≡ₚ l.
Proof.
  induction l as [|p l IH]; simpl; [done|].
  rewrite insert_by_start_perm. by f_equiv.
Qed.

Lemma sort_by_start_length l : length (sort_by_start l) = length l.
Proof. by rewrite sort_by_start_perm. Qed.

Lemma elem_of_sort_by_start p l : p ∈ sort_by_start l ↔ p ∈ l.
Proof. by rewrite sort_by_start_perm. Qed.

Lemma insert_by_start_sorted p l :
  StronglySorted start_le l → StronglySorted start_le (insert_by_start p l).
Proof.
  induction 1 as [|q l Hs IH Hq]; simpl.
  - repeat constructor.
  - destruct (Z.leb_spec (fst p) (fst q)) as [Hle|Hgt].
    + constructor; [by constructor|].
      constructor; [done|].
      eapply Forall_impl; [exact Hq|]. unfold start_le. intros; lia.
    + constructor; [done|].
      rewrite insert_by_start_perm. constructor; [|done].
      unfold start_le. lia.
Qed.

Lemma sort_by_start_sorted l : StronglySorted start_le (sort_by_start l).
Proof.
  induction l as [|p l IH]; simpl; [constructor|].
  by apply insert_by_start_sorted.
Qed.

(** A list already in order is left as it is. *)
Lemma sort_by_start_id l : StronglySorted start_le l → sort_by_start l = l.
Proof.
  induction 1 as [|p l Hs IH Hp]; simpl; [done|].
  rewrite IH. destruct l as [|q l]; simpl; [done|].
  apply Forall_cons in Hp as [Hpq _]. unfold start_le in Hpq.
  destruct (Z.leb_spec (fst p) (fst q)); [done|lia].
Qed.

(** Stability: among equal starts the order of arrival is kept. *)
Lemma insert_by_start_filter k p l :
  StronglySorted start_le l →
  filter (λ q, fst q = k) (insert_by_start p l) = filter (λ q, fst q = k) (p :: l).
Proof.
  induction 1 as [|q l Hs IH Hq]; simpl; [done|].
  destruct (Z.leb_spec (fst p) (fst q)) as [Hle|Hgt]; [done|].
  rewrite !filter_cons, IH, !filter_cons.
  destruct (decide (fst q = k)), (decide (fst p = k)); try done. lia.
Qed.

Lemma sort_by_start_stable k l :
  filter (λ q, fst q = k) (sort_by_start l) = filter (λ q, fst q = k) l.
Proof.
  induction l as [|p l IH]; simpl; [done|].
  rewrite insert_by_start_filter by apply sort_by_start_sorted.
  by rewrite !filter_cons, IH.
Qed.

End SortFacts.

(** ** The sweep *)

Module SweepFacts.
Import CalendarService SlotSpec Sweep SortFacts.

Lemma sweep_split dm l cur acc :
  sweep dm l cur acc = (cursor l cur, acc ++ emitted dm l cur).
Proof.
  revert cur acc. induction l as [|[s e] l IH]; intros cur acc; simpl.
  - by rewrite app_nil_r.
  - rewrite IH. destruct (_ <=? s); simpl; [|done].
    by rewrite <- app_assoc.
Qed.

Lemma candidate_slots_split sod eod busy dm :
  candidate_slots sod eod busy dm =
    emitted dm (sort_by_start busy) sod
    ++ tail eod dm (cursor (sort_by_start busy) sod).
Proof.
  unfold candidate_slots, tail. rewrite sweep_split. simpl.
  destruct (_ <=? eod); simpl; [done|]. by rewrite app_nil_r.
Qed.

Lemma cursor_ge l cur : cur <= cursor l cur.
Proof.
  revert cur. induction l as [|[s e] l IH]; intros cur; simpl; [lia|].
  specialize (IH (Z.max cur e)). lia.
Qed.

Lemma cursor_end l cur p : p ∈ l → snd p <= cursor l cur.
Proof.
  revert cur. induction l as [|[s e] l IH]; intros cur Hin; simpl.
  - by apply elem_of_nil in Hin.
  - apply elem_of_cons in Hin as [->|Hin]; simpl.
    + pose proof (cursor_ge l (Z.max cur e)). lia.
    + by apply IH.
Qed.

(** Every slot of the loop is the slot at a position of the cursor. *)
Lemma emitted_shape dm l cur x :
  x ∈ emitted dm l cur →
  x = slot_at (slot_start x) dm ∧ cur <= slot_start x <= cursor l cur.
Proof.
  revert cur. induction l as [|[s e] l IH]; intros cur Hin; simpl in *.
  - by apply elem_of_nil in Hin.
  - apply elem_of_app in Hin as [Hin|Hin].
    + destruct (_ <=? s); [|by apply elem_of_nil in Hin].
      apply list_elem_of_singleton in Hin as ->. simpl.
      split; [done|]. pose proof (cursor_ge l (Z.max cur e)). lia.
    + apply IH in Hin as (Hx & Hlo & Hhi). split; [done|]. lia.
Qed.

Lemma tail_shape eod dm cur x :
  x ∈ tail eod dm cur → x = slot_at cur dm ∧ slot_end x <= eod.
Proof.
  unfold tail. destruct (Z.leb_spec (cur + Datetime.timedelta_minutes dm) eod);
    intros Hin; [|by apply elem_of_nil in Hin].
  apply list_elem_of_singleton in Hin as ->. by simpl.
Qed.

Lemma emitted_length dm l cur : (length (emitted dm l cur) <= length l)%nat.
Proof.
  revert cur. induction l as [|[s e] l IH]; intros cur; simpl; [done|].
  rewrite length_app. specialize (IH (Z.max cur e)).
  destruct (_ <=? s); simpl; lia.
Qed.

Lemma tail_length eod dm cur : (length (tail eod dm cur) <= 1)%nat.
Proof. unfold tail. destruct (_ <=? eod); simpl; lia. Qed.

End SweepFacts.

(** ** Where the slots lie *)

Module PlaceFacts.
Import CalendarService SlotSpec Sweep SortFacts SweepFacts.

(** A slot of the loop ends where a busy period of the list begins, or
    earlier. *)
Lemma emitted_no_overlap dm l cur x p :
  StronglySorted start_le l → x ∈ emitted dm l cur → p ∈ l → ¬ overlaps_busy x p.
Proof.
  intros Hs. revert cur. induction Hs as [|[s e] l Hs IH Hhd]; intros cur Hx Hp; simpl in *.
  - by apply elem_of_nil in Hp.
  - rewrite Forall_forall in Hhd. unfold overlaps_busy.
    apply elem_of_app in Hx as [Hx|Hx].
    + destruct (Z.leb_spec (cur + Datetime.timedelta_minutes dm) s) as [Hgap|];
        [|by apply elem_of_nil in Hx].
      apply list_elem_of_singleton in Hx as ->. simpl.
      apply elem_of_cons in Hp as [->|Hp]; simpl; [lia|].
      apply Hhd in Hp. unfold start_le in Hp. simpl in Hp. lia.
    + apply elem_of_cons in Hp as [->|Hp]; simpl.
      * apply emitted_shape in Hx as (_ & Hlo & _). lia.
      * by apply IH with (cur := Z.max cur e).
Qed.

Lemma candidate_shape sod eod busy dm x :
  x ∈ candidate_slots sod eod busy dm → x = slot_at (slot_start x) dm.
Proof.
  rewrite candidate_slots_split. intros [Hx|Hx]%elem_of_app.
  - by apply emitted_shape in Hx as (? & _).
  - by apply tail_shape in Hx as (-> & _).
Qed.

(** No slot begins before the window does. *)
Lemma candidate_start sod eod busy dm x :
  x ∈ candidate_slots sod eod busy dm → sod <= slot_start x.
Proof.
  rewrite candidate_slots_split. intros [Hx|Hx]%elem_of_app.
  - apply emitted_shape in Hx as (_ & ? & _). lia.
  - apply tail_shape in Hx as (-> & _). simpl. apply cursor_ge.
Qed.

(** No slot shares time with a busy period, whatever the periods are. *)
Lemma candidate_no_overlap sod eod busy dm x p :
  x ∈ candidate_slots sod eod busy dm → p ∈ busy → ¬ overlaps_busy x p.
Proof.
  rewrite candidate_slots_split. intros [Hx|Hx]%elem_of_app Hp.
  - eapply emitted_no_overlap; [apply sort_by_start_sorted|exact Hx|].
    by apply elem_of_sort_by_start.
  - apply tail_shape in Hx as (-> & _). unfold overlaps_busy. simpl.
    apply elem_of_sort_by_start in Hp.
    apply (cursor_end _ sod) in Hp. lia.
Qed.

(** The slot before a busy period ends by the start of that period: it
    stays in the window when the period begins in it. *)
Lemma emitted_end dm l cur x :
  x ∈ emitted dm l cur → ∃ p, p ∈ l ∧ slot_end x <= fst p.
Proof.
  revert cur. induction l as [|[s e] l IH]; intros cur Hx; simpl in *.
  - by apply elem_of_nil in Hx.
  - apply elem_of_app in Hx as [Hx|Hx].
    + destruct (Z.leb_spec (cur + Datetime.timedelta_minutes dm) s) as [Hgap|];
        [|by apply elem_of_nil in Hx].
      apply list_elem_of_singleton in Hx as ->.
      exists (s, e). split; [left|done].
    + apply IH in Hx as (p & Hp & Hle). exists p. split; [by right|done].
Qed.

Lemma candidate_within_window sod eod busy dm x :
  (∀ p, p ∈ busy → fst p <= eod) →
  x ∈ candidate_slots sod eod busy dm → within_window sod eod x.
Proof.
  intros Hbusy Hx. split; [by eapply candidate_start|].
  revert Hx. rewrite candidate_slots_split. intros [Hx|Hx]%elem_of_app.
  - apply emitted_end in Hx as (p & Hp & Hle).
    apply elem_of_sort_by_start, Hbusy in Hp. lia.
  - by apply tail_shape in Hx as (_ & ?).
Qed.

End PlaceFacts.

(** ** The order of the slots *)

Module OrderFacts.
Import CalendarService SlotSpec Sweep SortFacts SweepFacts.

Lemma StronglySorted_lookup {A} (R : relation A) l (i j : nat) x y :
  StronglySorted R l → (i < j)%nat → l !! i = Some x → l !! j = Some y → R x y.
Proof.
  intros Hs. revert i j. induction Hs as [|a l Hs IH Ha]; intros i j Hij Hi Hj.
  - done.
  - destruct j as [|j]; [lia|]. simpl in Hj. destruct i as [|i]; simpl in Hi.
    + injection Hi as ->. rewrite Forall_forall in Ha.
      by eapply Ha, list_elem_of_lookup_2.
    + apply (IH i j); [lia|done..].
Qed.

Lemma StronglySorted_take {A} (R : relation A) n l :
  StronglySorted R l → StronglySorted R (take n l).
Proof.
  intros Hs. rewrite <- (take_drop n l) in Hs.
  by apply StronglySorted_app_1_l in Hs.
Qed.

(** The cursor never moves back: the slots come earliest first. *)
Lemma emitted_not_later dm l cur : StronglySorted not_later (emitted dm l cur).
Proof.
  revert cur. induction l as [|[s e] l IH]; intros cur; simpl; [constructor|].
  apply StronglySorted_app_2; [|destruct (_ <=? s); repeat constructor|apply IH].
  intros x y Hx Hy. destruct (_ <=? s); [|by apply elem_of_nil in Hx].
  apply list_elem_of_singleton in Hx as ->.
  apply emitted_shape in Hy as (_ & Hlo & _). unfold not_later. simpl. lia.
Qed.

Lemma tail_sorted (R : relation slot) eod dm cur : StronglySorted R (tail eod dm cur).
Proof. unfold tail. destruct (_ <=? eod); repeat constructor. Qed.

Lemma candidate_not_later sod eod busy dm :
  StronglySorted not_later (candidate_slots sod eod busy dm).
Proof.
  rewrite candidate_slots_split.
  apply StronglySorted_app_2; [|apply emitted_not_later|apply tail_sorted].
  intros x y Hx Hy. apply emitted_shape in Hx as (_ & _ & Hhi).
  apply tail_shape in Hy as (-> & _). by unfold not_later.
Qed.

(** With busy periods that do not end before they begin, a slot of the
    loop is over when the cursor has passed the period behind it. *)
Lemma emitted_end_cursor dm l cur x :
  Forall well_formed l → x ∈ emitted dm l cur → slot_end x <= cursor l cur.
Proof.
  intros Hwf. revert cur. induction Hwf as [|[s e] l Hse Hwf IH]; intros cur Hx; simpl in *.
  - by apply elem_of_nil in Hx.
  - unfold well_formed in Hse. simpl in Hse.
    apply elem_of_app in Hx as [Hx|Hx]; [|by apply IH].
    destruct (Z.leb_spec (cur + Datetime.timedelta_minutes dm) s) as [Hgap|];
      [|by apply elem_of_nil in Hx].
    apply list_elem_of_singleton in Hx as ->. simpl.
    pose proof (cursor_ge l (Z.max cur e)). lia.
Qed.

Lemma emitted_before dm l cur :
  Forall well_formed l → StronglySorted before (emitted dm l cur).
Proof.
  intros Hwf. revert cur. induction Hwf as [|[s e] l Hse Hwf IH]; intros cur; simpl.
  - constructor.
  - unfold well_formed in Hse. simpl in Hse.
    apply StronglySorted_app_2; [|destruct (_ <=? s); repeat constructor|apply IH].
    intros x y Hx Hy.
    destruct (Z.leb_spec (cur + Datetime.timedelta_minutes dm) s) as [Hgap|];
      [|by apply elem_of_nil in Hx].
    apply list_elem_of_singleton in Hx as ->.
    apply emitted_shape in Hy as (_ & Hlo & _). unfold before. simpl. lia.
Qed.

Lemma candidate_before sod eod busy dm :
  Forall well_formed busy → StronglySorted before (candidate_slots sod eod busy dm).
Proof.
  intros Hwf. rewrite candidate_slots_split.
  assert (Forall well_formed (sort_by_start busy)) as Hwf'
    by by rewrite sort_by_start_perm.
  apply StronglySorted_app_2; [|by apply emitted_before|apply tail_sorted].
  intros x y Hx Hy. apply (emitted_end_cursor _ _ _ _ Hwf') in Hx.
  apply tail_shape in Hy as (-> & _). by unfold before.
Qed.

End OrderFacts.

(** ** The claims about the free-slot finder *)

Module SlotFinder.
Import CalendarService SlotSpec Sweep SortFacts SweepFacts PlaceFacts OrderFacts.
Import Scenario.

Lemma first_five_lookup sod eod busy dm (i : nat) x :
  first_five sod eod busy dm !! i = Some x →
  candidate_slots sod eod busy dm !! i = Some x.
Proof. unfold first_five. rewrite lookup_take_Some. tauto. Qed.

Lemma first_five_elem sod eod busy dm x :
  x ∈ first_five sod eod busy dm → x ∈ candidate_slots sod eod busy dm.
Proof.
  intros [i Hi]%list_elem_of_lookup_1.
  eapply list_elem_of_lookup_2, first_five_lookup, Hi.
Qed.

(** Every returned slot has length exactly [duration_minutes], for every
    input. *)
Lemma first_five_exact_length sod eod busy dm :
  Forall (exact_length dm) (first_five sod eod busy dm).
Proof.
  apply Forall_forall. intros x Hx%first_five_elem%candidate_shape.
  rewrite Hx. unfold exact_length. simpl. lia.
Qed.

(** The part of C1 the code keeps, for every input: a returned slot does
    not begin before the window and shares no time with a busy period. *)
Lemma first_five_start_no_overlap sod eod busy dm x :
  x ∈ first_five sod eod busy dm →
  sod <= slot_start x ∧ ∀ p, p ∈ busy → ¬ overlaps_busy x p.
Proof.
  intros Hx%first_five_elem. split; [by eapply candidate_start|].
  intros p Hp. by eapply candidate_no_overlap.
Qed.

(** When every busy period begins by the end of the window, the returned
    slots lie in the window. *)
Lemma first_five_within_window sod eod busy dm x :
  (∀ p, p ∈ busy → fst p <= eod) →
  x ∈ first_five sod eod busy dm → within_window sod eod x.
Proof. intros Hbusy Hx%first_five_elem. by eapply candidate_within_window. Qed.

(** C1, the code departs from the claim: with the window 09:00-17:00, a
    duration of 60 minutes and the busy periods 17:30-18:00 and 20:00-21:00,
    [suggest_time_slots] returns 09:00-10:00 and 18:00-19:00; the second slot
    ends after the window.  The gap before a busy period is only compared
    with the start of that period, never with [end_of_day]. *)
Theorem C1_slot_after_window :
  @suggest_time_slots Datetime.iso
     (calendar [timed "2024-01-15T17:30:00Z" "2024-01-15T18:00:00Z";
                timed "2024-01-15T20:00:00Z" "2024-01-15T21:00:00Z"])
     "2024-01-15" 60 9 17
  = Return [ {| sd_start := "2024-01-15T09:00:00"; sd_end := "2024-01-15T10:00:00";
                sd_duration_minutes := 60 |};
             {| sd_start := "2024-01-15T18:00:00"; sd_end := "2024-01-15T19:00:00";
                sd_duration_minutes := 60 |} ]
  ∧ first_five (at_ 9 0) (at_ 17 0)
      [(at_ 17 30, at_ 18 0); (at_ 20 0, at_ 21 0)] 60
    = [slot_at (at_ 9 0) 60; slot_at (at_ 18 0) 60]
  ∧ ¬ within_window (at_ 9 0) (at_ 17 0) (slot_at (at_ 18 0) 60).
Proof.
  split; [by vm_compute|]. split; [by vm_compute|].
  intros [_ Hend]. vm_compute in Hend. by apply Hend.
Qed.

Lemma well_spaced_of_before dm l :
  0 < dm →
  StronglySorted before l →
  Forall (exact_length dm) l →
  well_spaced dm l.
Proof.
  intros Hdm Hs Hlen. split; [|split; [|done]].
  - intros i j x y Hij Hi Hj. unfold disjoint.
    destruct (decide (i < j)%nat) as [Hlt|Hge].
    + left. by apply (StronglySorted_lookup before l i j).
    + right. apply (StronglySorted_lookup before l j i); [done|lia|done..].
  - intros i j x y Hij Hi Hj.
    pose proof (StronglySorted_lookup before l i j x y Hs Hij Hi Hj) as Hb.
    pose proof (Forall_lookup_1 _ _ _ _ Hlen Hi) as Hx.
    unfold before in Hb. unfold exact_length, Datetime.timedelta_minutes in Hx. lia.
Qed.

(** C2 as amended: when no normalized busy period ends before it begins
    and the duration is positive, the returned slots are pairwise
    non-overlapping, in strictly ascending order, and each has length exactly
    [duration_minutes]. *)
Theorem C2_slots_well_spaced sod eod busy dm :
  0 < dm →
  Forall well_formed busy →
  well_spaced dm (first_five sod eod busy dm).
Proof.
  intros Hdm Hwf. apply well_spaced_of_before; [done| |apply first_five_exact_length].
  apply StronglySorted_take. by apply candidate_before.
Qed.

Lemma C2_slots_well_spaced_witness :
  well_spaced 60 (first_five (at_ 9 0) (at_ 17 0) [(at_ 10 0, at_ 11 0)] 60).
Proof.
  apply C2_slots_well_spaced; [lia|].
  repeat constructor. unfold well_formed. by vm_compute.
Defined.

(** C2 as stated fails: an event across the end of daylight saving time,
    01:30-04:00 to 01:15-05:00, is normalized to a period that ends before it
    begins; with the window 00:00-17:00 and 90 minutes the finder returns
    00:00-01:30 and 01:15-02:45, which overlap. *)
Lemma C2_overlapping_slots :
  let sod := 86400 * Datetime.days_from_civil 2024 11 3 in
  ¬ well_spaced 90
      (first_five sod (sod + 3600 * 17)
         (@normalize Datetime.iso
            [busy "2024-11-03T01:30:00-04:00" "2024-11-03T01:15:00-05:00"]) 90).
Proof.
  intros sod (Hdis & _ & _).
  specialize (Hdis 0%nat 1%nat (slot_at sod 90) (slot_at (sod + 4500) 90)).
  vm_compute in Hdis.
  destruct Hdis as [H|H]; [done|done|done|by apply H|by apply H].
Qed.

(** *** Normalization *)

Section Normalize.
Context {lib : Datetime.Lib}.

Lemma normalize_fold l acc :
  fold_left normalize_step l acc = acc ++ normalize l.
Proof.
  unfold normalize. revert acc. induction l as [|b l IH]; intros acc; simpl.
  - by rewrite app_nil_r.
  - rewrite (IH (normalize_step acc b)), (IH (normalize_step [] b)).
    unfold normalize_step. destruct (normalize_body b) as [[p|]|e]; simpl;
      by rewrite ?app_nil_r, <- ?app_assoc.
Qed.

Lemma normalize_cons b l : normalize (b :: l) = normalize [b] ++ normalize l.
Proof. unfold normalize at 1. simpl. by rewrite normalize_fold. Qed.

Lemma normalize_app l1 l2 : normalize (l1 ++ l2) = normalize l1 ++ normalize l2.
Proof.
  induction l1 as [|b l1 IH]; simpl; [done|].
  by rewrite normalize_cons, IH, app_assoc, <- normalize_cons.
Qed.

Lemma normalize_one b :
  normalize [b] = match normalize_body b with
                  | Return (Some p) => [p]
                  | _ => []
                  end.
Proof.
  unfold normalize. simpl. unfold normalize_step.
  by destruct (normalize_body b) as [[p|]|e].
Qed.

Lemma elem_of_normalize p l :
  p ∈ normalize l ↔ ∃ b, b ∈ l ∧ normalize_body b = Return (Some p).
Proof.
  induction l as [|b l IH].
  - split; [by intros ?%elem_of_nil|by intros (b & ?%elem_of_nil & _)].
  - rewrite normalize_cons, elem_of_app, IH, normalize_one. split.
    + intros [Hp|(b' & Hb' & Hbody)].
      * exists b. split; [left|].
        destruct (normalize_body b) as [[q|]|e];
          [by apply list_elem_of_singleton in Hp as ->
          |by apply elem_of_nil in Hp..].
      * exists b'. split; [by right|done].
    + intros (b' & [->|Hb']%elem_of_cons & Hbody).
      * left. rewrite Hbody. left.
      * right. by exists b'.
Qed.

(** What the [try] block appends, spelled out. *)
Lemma normalize_body_Some b p :
  normalize_body b = Return (Some p) ↔
  ∃ s e ds de,
    b_start b = Some s ∧ Str.contains "T" s = true ∧ b_end b = Some e ∧
    Datetime.fromisoformat (Str.replace "Z" "+00:00" s) = Some ds ∧
    Datetime.fromisoformat (Str.replace "Z" "+00:00" e) = Some de ∧
    p = (fst ds, fst de).
Proof.
  unfold normalize_body, parse_naive, Datetime.replace_tzinfo_None.
  destruct (b_start b) as [s|]; simpl.
  2: { split; [done|]. by intros (? & ? & ? & ? & ? & _). }
  destruct (Str.contains "T" s) eqn:HT; simpl.
  2: { split; [done|]. intros (? & ? & ? & ? & [= <-] & ? & _). congruence. }
  destruct (Datetime.fromisoformat (Str.replace "Z" "+00:00" s)) as [ds|] eqn:Hs; simpl.
  2: { split; [done|]. intros (? & ? & ? & ? & [= <-] & _ & _ & ? & _). congruence. }
  destruct (b_end b) as [e|]; simpl.
  2: { split; [done|]. by intros (? & ? & ? & ? & _ & _ & ? & _). }
  destruct (Datetime.fromisoformat (Str.replace "Z" "+00:00" e)) as [de|] eqn:He; simpl.
  2: { split; [done|].
       intros (? & ? & ? & ? & _ & _ & [= <-] & _ & ? & _). congruence. }
  split.
  - intros [= <-]. by exists s, e, ds, de.
  - intros (? & ? & ? & ? & [= <-] & _ & [= <-] & ? & ? & ->). by simplify_eq.
Qed.

(** The entries that are dropped are the all-day and the unparsable
    ones, and only they. *)
Lemma malformed_dropped b :
  malformed b = true ↔ normalize [b] = [].
Proof.
  rewrite normalize_one.
  unfold malformed, all_day, unparsable, parses, normalize_body, parse_naive.
  destruct (b_start b) as [s|]; simpl; [|done].
  destruct (Str.contains "T" s); simpl; [|done].
  destruct (Datetime.fromisoformat (Str.replace "Z" "+00:00" s)) as [ds|];
    simpl; [|done].
  destruct (b_end b) as [e|]; simpl; [|done].
  by destruct (Datetime.fromisoformat (Str.replace "Z" "+00:00" e)) as [de|].
Qed.

(** C3 as amended: the normalized busy periods are exactly the pairs of
    parsed start and end of the entries whose start holds a time of day
    and whose two timestamps parse; every other entry is skipped, and
    normalization always yields a list.  That the start is before the end
    is not checked. *)
Theorem C3_normalize_retains busy_times p :
  p ∈ normalize busy_times ↔
  ∃ b s e ds de,
    b ∈ busy_times ∧
    b_start b = Some s ∧ Str.contains "T" s = true ∧ b_end b = Some e ∧
    Datetime.fromisoformat (Str.replace "Z" "+00:00" s) = Some ds ∧
    Datetime.fromisoformat (Str.replace "Z" "+00:00" e) = Some de ∧
    p = (fst ds, fst de).
Proof.
  rewrite elem_of_normalize. split.
  - intros (b & Hb & (s & e & ds & de & H)%normalize_body_Some).
    by exists b, s, e, ds, de.
  - intros (b & s & e & ds & de & Hb & H).
    exists b. split; [done|]. apply normalize_body_Some. by exists s, e, ds, de.
Qed.

End Normalize.

(** C3 as stated fails: an event of length zero, 10:00 to 10:00, is
    retained, and its start is not before its end. *)
Lemma C3_zero_length_retained :
  ¬ (∀ p, p ∈ @normalize Datetime.iso
                [busy "2024-01-15T10:00:00Z" "2024-01-15T10:00:00Z"] →
          fst p < snd p).
Proof.
  intros H. specialize (H (at_ 10 0, at_ 10 0)).
  vm_compute in H. discriminate H. left.
Qed.

(** *** The explicit merge *)

Lemma covered_cons p l t : covered (p :: l) t ↔ fst p <= t < snd p ∨ covered l t.
Proof.
  unfold covered. split.
  - intros (q & [->|Hq]%elem_of_cons & Ht); [by left|right; by exists q].
  - intros [Ht|(q & Hq & Ht)]; [exists p; split; [left|done]|].
    exists q. split; [by right|done].
Qed.

(** A merged period keeps the start of the first period merged into it. *)
Lemma merge_into_head s e rest : ∃ e' tl, merge_into s e rest = (s, e') :: tl.
Proof.
  revert e. induction rest as [|[s' e'] rest IH]; intros e; simpl; [by eauto|].
  destruct (s' <=? e); [apply IH|by eauto].
Qed.

(** The merged periods are disjoint: each is over before the next begins. *)
Lemma merge_into_separated s e rest : Sorted separated (merge_into s e rest).
Proof.
  revert s e. induction rest as [|[s' e'] rest IH]; intros s e; simpl.
  - by repeat constructor.
  - destruct (Z.leb_spec s' e) as [Hle|Hgt]; [apply IH|].
    constructor; [apply IH|].
    destruct (merge_into_head s' e' rest) as (e'' & tl & ->).
    constructor. by unfold separated.
Qed.

Lemma merge_overlapping_separated l : Sorted separated (merge_overlapping l).
Proof. destruct l as [|[s e] l]; [constructor|apply merge_into_separated]. Qed.

(** The merge of a list sorted by start keeps the busy instants. *)
Lemma merge_into_covered s e rest t :
  StronglySorted start_le ((s, e) :: rest) →
  covered (merge_into s e rest) t ↔ covered ((s, e) :: rest) t.
Proof.
  revert s e. induction rest as [|[s' e'] rest IH]; intros s e Hs; simpl; [done|].
  apply StronglySorted_cons in Hs as [Hhd Hs].
  apply Forall_cons in Hhd as [Hss' Hhd]. unfold start_le in Hss'. simpl in Hss'.
  destruct (Z.leb_spec s' e) as [Hle|Hgt].
  - rewrite IH.
    + rewrite !covered_cons. simpl. split.
      * intros [Ht|Ht]; [|by right; right].
        destruct (decide (t < e)); [left|right; left]; lia.
      * intros [Ht|[Ht|Ht]]; [left; lia|left; lia|by right].
    + apply StronglySorted_cons. split; [done|].
      by apply StronglySorted_cons in Hs as [_ ?].
  - rewrite covered_cons, IH by done. by rewrite <- covered_cons.
Qed.

Lemma merge_overlapping_covered l t :
  StronglySorted start_le l → covered (merge_overlapping l) t ↔ covered l t.
Proof. destruct l as [|[s e] l]; [done|apply merge_into_covered]. Qed.

(** The sweep cannot tell a run of overlapping periods from their merge:
    the cursor is past the start of each period merged in. *)
Lemma sweep_merge_into dm s e rest cur :
  0 < dm →
  cursor (merge_into s e rest) cur = cursor ((s, e) :: rest) cur ∧
  emitted dm (merge_into s e rest) cur = emitted dm ((s, e) :: rest) cur.
Proof.
  intros Hdm. revert s e cur.
  induction rest as [|[s' e'] rest IH]; intros s e cur; [done|].
  cbn [merge_into]. destruct (Z.leb_spec s' e) as [Hle|Hgt].
  - destruct (IH s (Z.max e e') cur) as [-> ->]. cbn [cursor emitted].
    rewrite Z.max_assoc.
    destruct (Z.leb_spec (Z.max cur e + Datetime.timedelta_minutes dm) s') as [Hgap|_];
      [|done].
    unfold Datetime.timedelta_minutes in Hgap. lia.
  - cbn [cursor emitted]. by destruct (IH s' e' (Z.max cur e)) as [-> ->].
Qed.

Lemma sweep_merge_overlapping dm l cur :
  0 < dm →
  cursor (merge_overlapping l) cur = cursor l cur ∧
  emitted dm (merge_overlapping l) cur = emitted dm l cur.
Proof. intros Hdm. destruct l as [|[s e] l]; [done|by apply sweep_merge_into]. Qed.

(** C4: for a positive duration, the sweep over the sorted busy periods
    yields the same sequence of slots as the sweep over the periods merged
    into disjoint ones, before and after the truncation to five. *)
Theorem C4_sweep_is_merged_sweep sod eod busy dm :
  0 < dm →
  candidate_slots sod eod busy dm = candidate_slots_merged sod eod busy dm ∧
  first_five sod eod busy dm = take 5 (candidate_slots_merged sod eod busy dm).
Proof.
  intros Hdm.
  assert (candidate_slots sod eod busy dm = candidate_slots_merged sod eod busy dm)
    as Heq; [|by unfold first_five; rewrite Heq].
  unfold candidate_slots, candidate_slots_merged. rewrite !sweep_split.
  by destruct (sweep_merge_overlapping dm (sort_by_start busy) sod Hdm) as [-> ->].
Qed.

Lemma C4_sweep_is_merged_sweep_witness :
  candidate_slots (at_ 9 0) (at_ 17 0)
    [(at_ 9 0, at_ 9 30); (at_ 9 15, at_ 10 0)] 60
  = candidate_slots_merged (at_ 9 0) (at_ 17 0)
      [(at_ 9 0, at_ 9 30); (at_ 9 15, at_ 10 0)] 60
  ∧ first_five (at_ 9 0) (at_ 17 0)
      [(at_ 9 0, at_ 9 30); (at_ 9 15, at_ 10 0)] 60
    = take 5 (candidate_slots_merged (at_ 9 0) (at_ 17 0)
                [(at_ 9 0, at_ 9 30); (at_ 9 15, at_ 10 0)] 60).
Proof. apply C4_sweep_is_merged_sweep. lia. Defined.

(** *** Counting and truncation *)

(** C5: with [n] normalized busy periods the finder builds at most [n + 1]
    slots before the truncation; with none it builds the slot at the start
    of the window or nothing, never a tiling of the window. *)
Theorem C5_candidate_bound sod eod busy dm :
  (length (candidate_slots sod eod busy dm) <= length busy + 1)%nat ∧
  (candidate_slots sod eod [] dm = [slot_at sod dm] ∨
   candidate_slots sod eod [] dm = []).
Proof.
  split.
  - rewrite candidate_slots_split, length_app.
    pose proof (emitted_length dm (sort_by_start busy) sod) as He.
    pose proof (tail_length eod dm (cursor (sort_by_start busy) sod)).
    rewrite sort_by_start_length in He. lia.
  - unfold candidate_slots. simpl. destruct (_ <=? eod); [by left|by right].
Qed.

(** The boundary of section 8: no busy period and a window exactly as wide
    as the duration give one slot, the window itself. *)
Lemma window_exactly_duration sod dm :
  first_five sod (sod + Datetime.timedelta_minutes dm) [] dm
  = [ {| slot_start := sod; slot_end := sod + Datetime.timedelta_minutes dm;
         duration_minutes := dm |} ].
Proof.
  unfold first_five, candidate_slots. simpl.
  by rewrite Z.leb_refl.
Qed.

(** C6: the finder returns at most five slots, the first five it built;
    a cap keeps a prefix of the candidates, which come earliest first, so
    no dropped slot begins before a kept one; with a cap of 1 the result is
    the first candidate alone. *)
Theorem C6_truncation sod eod busy dm :
  (length (first_five sod eod busy dm) <= 5)%nat ∧
  first_five sod eod busy dm = findSlots sod eod busy dm 5 ∧
  (∀ n,
     candidate_slots sod eod busy dm
       = findSlots sod eod busy dm n ++ drop n (candidate_slots sod eod busy dm) ∧
     earliest_first (findSlots sod eod busy dm n) ∧
     ∀ x y, x ∈ findSlots sod eod busy dm n →
            y ∈ drop n (candidate_slots sod eod busy dm) →
            slot_start x <= slot_start y) ∧
  findSlots sod eod busy dm 1
    = match candidate_slots sod eod busy dm with
      | [] => []
      | earliest :: _ => [earliest]
      end.
Proof.
  split; [|split; [done|split]].
  - unfold first_five. rewrite length_take. lia.
  - intros n. unfold findSlots.
    pose proof (candidate_not_later sod eod busy dm) as Hs.
    split; [by rewrite take_drop|]. split.
    + intros i j x y Hij Hi Hj.
      by apply (StronglySorted_lookup not_later _ i j _ _ (StronglySorted_take _ n _ Hs)).
    + rewrite <- (take_drop n (candidate_slots sod eod busy dm)) in Hs at 1.
      intros x y Hx Hy. by apply (StronglySorted_app_1_elem_of _ _ _ _ _ Hs).
  - unfold findSlots. by destruct (candidate_slots sod eod busy dm).
Qed.

(** *** A busy period across the window *)

(** Behind a busy period that begins by the position of the cursor, every
    slot of the loop begins at the end of that period or later. *)
Lemma emitted_after_early_period dm l cur s e x :
  0 < dm →
  StronglySorted start_le l → (s, e) ∈ l → s <= cur →
  x ∈ emitted dm l cur → e <= slot_start x.
Proof.
  intros Hdm Hs. revert cur.
  induction Hs as [|[s0 e0] l Hs IH Hhd]; intros cur Hin Hcur Hx.
  - by apply elem_of_nil in Hin.
  - rewrite Forall_forall in Hhd. cbn [emitted] in Hx.
    assert (s0 <= s) as Hs0.
    { apply elem_of_cons in Hin as [[= -> ->]|Hin]; [lia|]. by apply Hhd in Hin. }
    destruct (Z.leb_spec (cur + Datetime.timedelta_minutes dm) s0) as [Hgap|_].
    { unfold Datetime.timedelta_minutes in Hgap. lia. }
    simpl in Hx. apply elem_of_cons in Hin as [[= -> ->]|Hin].
    + apply emitted_shape in Hx as (_ & Hlo & _). lia.
    + apply (IH (Z.max cur e0)); [done|lia|done].
Qed.

Lemma candidate_after_early_period sod eod busy dm s e x :
  0 < dm → (s, e) ∈ busy → s <= sod →
  x ∈ candidate_slots sod eod busy dm → e <= slot_start x.
Proof.
  intros Hdm Hin Hs. apply elem_of_sort_by_start in Hin.
  rewrite candidate_slots_split. intros [Hx|Hx]%elem_of_app.
  - eapply emitted_after_early_period; eauto using sort_by_start_sorted.
  - apply tail_shape in Hx as (-> & _). simpl.
    by apply (cursor_end _ sod) in Hin.
Qed.

(** With a busy period across the whole window, no returned slot lies in
    the window. *)
Lemma spanning_no_slot_in_window sod eod busy dm s e x :
  0 < dm → (s, e) ∈ busy → s <= sod → eod <= e →
  x ∈ first_five sod eod busy dm → ¬ within_window sod eod x.
Proof.
  intros Hdm Hin Hs He Hx%first_five_elem [_ Hend].
  pose proof (candidate_after_early_period _ _ _ _ _ _ _ Hdm Hin Hs Hx).
  apply candidate_shape in Hx. rewrite Hx in Hend. simpl in Hend.
  unfold Datetime.timedelta_minutes in Hend. lia.
Qed.

(** The boundary of section 8: a single busy period across the window
    leaves no slot. *)
Lemma spanning_alone_no_slots sod eod dm s e :
  0 < dm → s <= sod → eod <= e → first_five sod eod [(s, e)] dm = [].
Proof.
  intros Hdm Hs He. unfold first_five, candidate_slots. simpl.
  destruct (Z.leb_spec (sod + Datetime.timedelta_minutes dm) s) as [Hgap|_].
  { unfold Datetime.timedelta_minutes in Hgap. lia. }
  destruct (Z.leb_spec (Z.max sod e + Datetime.timedelta_minutes dm) eod) as [Hgap|_];
    [|done].
  unfold Datetime.timedelta_minutes in Hgap. lia.
Qed.

(** So does any set of busy periods that all begin by the end of the
    window, one of them across it. *)
Lemma spanning_no_slots sod eod busy dm s e :
  0 < dm → (s, e) ∈ busy → s <= sod → eod <= e →
  (∀ p, p ∈ busy → fst p <= eod) →
  first_five sod eod busy dm = [].
Proof.
  intros Hdm Hin Hs He Hbusy.
  destruct (first_five sod eod busy dm) as [|x l] eqn:Hfive; [done|].
  assert (x ∈ first_five sod eod busy dm) as Hx by (rewrite Hfive; left).
  destruct (spanning_no_slot_in_window _ _ _ _ _ _ _ Hdm Hin Hs He Hx).
  by apply (first_five_within_window sod eod busy dm).
Qed.

(** C7, the code departs from the claim: with the window 09:00-17:00, a
    duration of 60 minutes, a busy period 08:00-17:00 across the window and
    a later one 19:00-20:00, [suggest_time_slots] returns the slot
    17:00-18:00 instead of no slot.  The gap before the later period is only
    compared with the start of that period, never with [end_of_day]. *)
Theorem C7_slot_behind_spanning_period :
  @suggest_time_slots Datetime.iso
     (calendar [timed "2024-01-15T08:00:00Z" "2024-01-15T17:00:00Z";
                timed "2024-01-15T19:00:00Z" "2024-01-15T20:00:00Z"])
     "2024-01-15" 60 9 17
  = Return [ {| sd_start := "2024-01-15T17:00:00"; sd_end := "2024-01-15T18:00:00";
                sd_duration_minutes := 60 |} ]
  ∧ (at_ 8 0 <= at_ 9 0 ∧ at_ 17 0 <= at_ 17 0)
  ∧ first_five (at_ 9 0) (at_ 17 0)
      [(at_ 8 0, at_ 17 0); (at_ 19 0, at_ 20 0)] 60
    = [slot_at (at_ 17 0) 60].
Proof. split; [by vm_compute|]. split; [by vm_compute|by vm_compute]. Qed.

(** *** Malformed entries *)

Section Malformed.
Context {lib : Datetime.Lib}.

(** The turn of the loop for a malformed entry: its [try] block ends in the
    [continue] of an all-day entry or raises, and the list of busy periods is
    left as it was. *)
Lemma malformed_step bad busy_periods :
  malformed bad = true →
  (normalize_body bad = Return None ∨ ∃ e, normalize_body bad = Raise e) ∧
  normalize_step busy_periods bad = busy_periods.
Proof.
  intros Hbad%malformed_dropped. rewrite normalize_one in Hbad.
  unfold normalize_step.
  destruct (normalize_body bad) as [[p|]|e]; [done| |]; split; eauto.
Qed.

(** C8: an all-day entry or an entry with an unparsable timestamp is
    skipped and raises nothing out of the loop: its [try] block ends in
    [continue] or in an exception that the [except] clause catches, its turn
    of the loop leaves the busy periods as they were, and the finder gives
    the result, slots or exception, that it gives without that entry. *)
Theorem C8_malformed_skipped l1 bad l2 date dm sh eh :
  malformed bad = true →
  (normalize_body bad = Return None ∨ ∃ e, normalize_body bad = Raise e) ∧
  (∀ busy_periods, normalize_step busy_periods bad = busy_periods) ∧
  normalize (l1 ++ bad :: l2) = normalize (l1 ++ l2) ∧
  slots_for (l1 ++ bad :: l2) date dm sh eh = slots_for (l1 ++ l2) date dm sh eh.
Proof.
  intros Hbad.
  split; [by apply (malformed_step bad [])|].
  split; [intros busy_periods; by apply malformed_step|].
  apply malformed_dropped in Hbad.
  assert (normalize (l1 ++ bad :: l2) = normalize (l1 ++ l2)) as Heq.
  { by rewrite !normalize_app, normalize_cons, Hbad. }
  split; [done|]. unfold slots_for. by rewrite Heq.
Qed.

End Malformed.

Lemma C8_malformed_skipped_witness :
  let bad := busy "TBD" "2024-01-15T11:00:00Z" in
  let l2 := [busy "2024-01-15T10:00:00Z" "2024-01-15T11:00:00Z"] in
  (@normalize_body Datetime.iso bad = Return None ∨
   ∃ e, @normalize_body Datetime.iso bad = Raise e) ∧
  (∀ busy_periods, @normalize_step Datetime.iso busy_periods bad = busy_periods) ∧
  @normalize Datetime.iso ([] ++ bad :: l2) = @normalize Datetime.iso ([] ++ l2) ∧
  @slots_for Datetime.iso ([] ++ bad :: l2) "2024-01-15" 60 9 17
    = @slots_for Datetime.iso ([] ++ l2) "2024-01-15" 60 9 17.
Proof.
  intros bad l2.
  apply (@C8_malformed_skipped Datetime.iso [] bad l2 "2024-01-15" 60 9 17).
  by vm_compute.
Defined.

End SlotFinder.

(** ** The claims about the gateway and the action boundary *)

Module Boundary.
Import CalendarService CalendarAIAgent Scenario.

Section Availability.
Context {gw : Gateway}.

(** A failure of the backend is reported as an [Exception]. *)
Lemma check_availability_backend_down start_time end_time msg :
  events_list {| timeMin := Str.with_Z start_time;
                 timeMax := Some (Str.with_Z end_time);
                 maxResults := None |}
    = Raise (mk_exc HttpError msg) →
  check_availability start_time end_time
    = raise_Exception ("Failed to check availability: " +:+ msg).
Proof. intros H. unfold check_availability. simpl. by rewrite H. Qed.

(** C10: [check_availability] returns true exactly when the listing of
    the backend for the queried range holds no event, and false exactly
    when it holds any event; the events themselves are not looked at. *)
Theorem C10_available_iff_no_event start_time end_time :
  let request := {| timeMin := Str.with_Z start_time;
                    timeMax := Some (Str.with_Z end_time);
                    maxResults := None |} in
  (check_availability start_time end_time = Return true ↔
     ∃ r, events_list request = Return r ∧ default [] (items r) = []) ∧
  (check_availability start_time end_time = Return false ↔
     ∃ r, events_list request = Return r ∧ default [] (items r) ≠ []).
Proof.
  intros request. unfold check_availability. fold request.
  destruct (events_list request) as [r|e] eqn:Hlist; simpl.
  - unfold mret, result_ret.
    destruct (default [] (items r)) as [|ev evs] eqn:Hitems; simpl.
    + split; split; try done.
      * intros _. by exists r.
      * intros (r' & [= <-] & Hne). by rewrite Hitems in Hne.
    + split; split; try done.
      * intros (r' & [= <-] & Hnil). by rewrite Hitems in Hnil.
      * intros _. exists r. by rewrite Hitems.
  - split; split.
    + by destruct (is_HttpError e).
    + by intros (r & ? & _).
    + by destruct (is_HttpError e).
    + by intros (r & ? & _).
Qed.

End Availability.

Section Execute.
Context {lib : Datetime.Lib} {gw : Gateway}.

Lemma success_dict_lookup key payload message :
  success_dict key payload message !! "success" = Some (VBool true) ∧
  (key ≠ "success" → success_dict key payload message !! key = Some payload).
Proof.
  unfold success_dict. split; [by rewrite lookup_insert_eq|].
  intros Hkey. by rewrite lookup_insert_ne, lookup_insert_eq.
Qed.

Lemma failure_dict_lookup error :
  failure_dict error !! "success" = Some (VBool false) ∧
  failure_dict error !! "error" = Some (VStr error).
Proof.
  unfold failure_dict. split; [by rewrite lookup_insert_eq|].
  by rewrite lookup_insert_ne, lookup_insert_eq.
Qed.

(** What the [try] block returns when it returns. *)
Lemma execute_body_returns function_name arguments d :
  execute_body function_name arguments = Return d →
  (∃ key payload message,
      key ∈ ["available"; "slots"; "event"; "events"] ∧
      d = success_dict key payload message) ∨
  d = failure_dict ("Unknown function: " +:+ function_name).
Proof.
  unfold execute_body, mbind, result_bind, bind, mret, result_ret.
  intros H. step_binds H; try by right.
  all: left; do 3 eexists; (split; [|reflexivity]); set_solver.
Qed.

(** An action that is not one of the four is reported, not raised. *)
Lemma execute_unknown function_name arguments :
  function_name ∉ ["check_availability"; "suggest_time_slots";
                   "create_appointment"; "get_upcoming_events"] →
  _execute_function function_name arguments
    = Return (failure_dict ("Unknown function: " +:+ function_name)).
Proof.
  intros Hname. unfold _execute_function, execute_body.
  repeat match goal with
         | |- context [String.eqb function_name ?s] =>
             destruct (String.eqb_spec function_name s) as [->|_];
             [exfalso; apply Hname; set_solver|]
         end.
  done.
Qed.

(** Whatever is raised under the [try] comes back as the error string. *)
Lemma execute_raise function_name arguments e :
  execute_body function_name arguments = Raise e →
  _execute_function function_name arguments = Return (failure_dict (exc_str e)).
Proof. intros H. unfold _execute_function. by rewrite H. Qed.

(** C9: for every action name and argument dictionary
    [_execute_function] returns a dictionary and raises nothing; the
    dictionary has [success] true and a payload, or [success] false and an
    error string. *)
Theorem C9_execute_never_raises function_name arguments :
  ∃ d, _execute_function function_name arguments = Return d ∧
    ((d !! "success" = Some (VBool true) ∧
      ∃ key payload,
        key ∈ ["available"; "slots"; "event"; "events"] ∧
        d !! key = Some payload) ∨
     (d !! "success" = Some (VBool false) ∧
      ∃ error, d !! "error" = Some (VStr error))).
Proof.
  unfold _execute_function.
  destruct (execute_body function_name arguments) as [d|e] eqn:Hbody; simpl.
  - exists d. split; [done|].
    apply execute_body_returns in Hbody
      as [(key & payload & message & Hkey & ->)| ->].
    + left. destruct (success_dict_lookup key payload message) as [Hs Hk].
      split; [done|]. exists key, payload. split; [done|].
      apply Hk. intros ->.
      repeat (apply elem_of_cons in Hkey as [Hkey|Hkey]; [discriminate|]).
      by apply elem_of_nil in Hkey.
    + right. destruct (failure_dict_lookup ("Unknown function: " +:+ function_name)).
      eauto.
  - exists (failure_dict (exc_str e)). split; [done|]. right.
    destruct (failure_dict_lookup (exc_str e)). eauto.
Qed.

End Execute.

End Boundary.

(** ** The scenarios of section 8, run on the embedding *)

Module Scenarios.
Import CalendarService CalendarAIAgent SlotSpec Scenario.

#[local] Existing Instance Datetime.iso.

Example iso_drops_offset :
  Datetime.iso_strftime <$>
    (Datetime.replace_tzinfo_None <$>
       Datetime.iso_fromisoformat (Str.replace "Z" "+00:00" "2024-02-29T23:59:07Z"))
  = Some "2024-02-29T23:59:07".
Proof. by vm_compute. Qed.

(** Scenario A: one busy hour; a slot before it and one behind it, no
    tiling up to 17:00. *)
Example scenario_A :
  @suggest_time_slots _
     (calendar [timed "2024-01-15T10:00:00Z" "2024-01-15T11:00:00Z"])
     "2024-01-15" 60 9 17
  = Return [ {| sd_start := "2024-01-15T09:00:00"; sd_end := "2024-01-15T10:00:00";
                sd_duration_minutes := 60 |};
             {| sd_start := "2024-01-15T11:00:00"; sd_end := "2024-01-15T12:00:00";
                sd_duration_minutes := 60 |} ].
Proof. by vm_compute. Qed.

(** Scenario B: two overlapping busy periods; the next slot begins at
    10:00, as with the merged period 09:00-10:00. *)
Example scenario_B :
  first_five (at_ 9 0) (at_ 17 0) [(at_ 9 0, at_ 9 30); (at_ 9 15, at_ 10 0)] 60
    = [slot_at (at_ 10 0) 60]
  ∧ merge_overlapping [(at_ 9 0, at_ 9 30); (at_ 9 15, at_ 10 0)]
    = [(at_ 9 0, at_ 10 0)].
Proof. by vm_compute. Qed.

(** Scenario C: an entry with a start that is no ISO timestamp and an
    all-day entry among a valid one. *)
Example scenario_C :
  @suggest_time_slots _
     (calendar [timed "TBD" "2024-01-15T11:00:00Z";
                whole_day "2024-01-15" "2024-01-16";
                timed "2024-01-15T10:00:00Z" "2024-01-15T11:00:00Z"])
     "2024-01-15" 60 9 17
  = @suggest_time_slots _
     (calendar [timed "2024-01-15T10:00:00Z" "2024-01-15T11:00:00Z"])
     "2024-01-15" 60 9 17.
Proof. by vm_compute. Qed.

(** Scenario D: three possible slots and a cap of 1. *)
Example scenario_D :
  candidate_slots (at_ 9 0) (at_ 17 0)
    [(at_ 10 0, at_ 11 0); (at_ 12 0, at_ 13 0)] 60
    = [slot_at (at_ 9 0) 60; slot_at (at_ 11 0) 60; slot_at (at_ 13 0) 60]
  ∧ findSlots (at_ 9 0) (at_ 17 0)
      [(at_ 10 0, at_ 11 0); (at_ 12 0, at_ 13 0)] 60 1
    = [slot_at (at_ 9 0) 60].
Proof. by vm_compute. Qed.

(** The busy periods arrive in any order. *)
Example unordered_busy :
  first_five (at_ 9 0) (at_ 17 0)
    [(at_ 12 0, at_ 13 0); (at_ 10 0, at_ 11 0)] 60
  = [slot_at (at_ 9 0) 60; slot_at (at_ 11 0) 60; slot_at (at_ 13 0) 60].
Proof. by vm_compute. Qed.

(** A window that cannot be built is a failure of the finder. *)
Example invalid_window :
  @suggest_time_slots _ (calendar []) "2024-01-15" 60 9 24
  = raise_Exception "Failed to suggest time slots: hour must be in 0..23"
  ∧ @suggest_time_slots _ (calendar []) "15/01/2024" 60 9 17
    = raise_Exception
        "Failed to suggest time slots: time data does not match format '%Y-%m-%d'".
Proof. by vm_compute. Qed.

(** A backend that is down, seen through the action boundary. *)
Example backend_down :
  @_execute_function _ broken "check_availability"
    (<["start_time" := VStr "2024-01-15T10:00:00"]>
       (<["end_time" := VStr "2024-01-15T11:00:00"]> ∅))
  = Return (failure_dict "Failed to check availability: 503 Service Unavailable").
Proof. by vm_compute. Qed.

(** A missing required argument, seen through the action boundary. *)
Example missing_argument :
  @_execute_function _ (calendar []) "check_availability"
    (<["start_time" := VStr "2024-01-15T10:00:00"]> ∅)
  = Return (failure_dict "'end_time'").
Proof. by vm_compute. Qed.

Example free_hour :
  @_execute_function _ (calendar []) "check_availability"
    (<["start_time" := VStr "2024-01-15T10:00:00"]>
       (<["end_time" := VStr "2024-01-15T11:00:00"]> ∅))
  = Return (success_dict "available" (VBool true) "Time slot is available").
Proof. by vm_compute. Qed.

End Scenarios.

(** ** More on the sweep *)

Module SweepMore.
Import CalendarService SlotSpec Sweep SortFacts SweepFacts PlaceFacts OrderFacts Views.
Import Scenario.

Lemma cursor_app l1 l2 cur : cursor (l1 ++ l2) cur = cursor l2 (cursor l1 cur).
Proof.
  revert cur. induction l1 as [|[s e] l1 IH]; intros cur; simpl; [done|apply IH].
Qed.

Lemma emitted_app dm l1 l2 cur :
  emitted dm (l1 ++ l2) cur = emitted dm l1 cur ++ emitted dm l2 (cursor l1 cur).
Proof.
  revert cur. induction l1 as [|[s e] l1 IH]; intros cur; simpl; [done|].
  by rewrite IH, app_assoc.
Qed.

(** The cursor ends at the latest of its start and the ends it met. *)
Lemma cursor_max l cur e : cursor l (Z.max cur e) = Z.max (cursor l cur) e.
Proof.
  revert cur. induction l as [|[s' e'] l IH]; intros cur; simpl; [done|].
  rewrite <- IH. f_equal. lia.
Qed.

Lemma cursor_perm l1 l2 cur : l1 ≡ₚ l2 → cursor l1 cur = cursor l2 cur.
Proof.
  intros Hp. revert cur.
  induction Hp as [|[s e] l1 l2 _ IH|[s1 e1] [s2 e2] l|l1 l2 l3 _ IH1 _ IH2];
    intros cur; simpl.
  - done.
  - apply IH.
  - f_equal. lia.
  - by rewrite IH1.
Qed.

Lemma cursor_start_or_end l cur : cursor l cur = cur ∨ ends_at l (cursor l cur).
Proof.
  revert cur. induction l as [|[s e] l IH]; intros cur; simpl; [by left|].
  destruct (IH (Z.max cur e)) as [Heq|(p & Hp & Hend)].
  - rewrite Heq. destruct (Z.max_spec cur e) as [[_ ->]|[_ ->]]; [|by left].
    right. exists (s, e). split; [left|done].
  - right. exists p. split; [by right|done].
Qed.

Lemma emitted_start_or_end dm l cur x :
  x ∈ emitted dm l cur → slot_start x = cur ∨ ends_at l (slot_start x).
Proof.
  revert cur. induction l as [|[s e] l IH]; intros cur Hx; simpl in Hx.
  - by apply elem_of_nil in Hx.
  - apply elem_of_app in Hx as [Hx|Hx].
    + destruct (_ <=? s); [|by apply elem_of_nil in Hx].
      apply list_elem_of_singleton in Hx as ->. by left.
    + apply IH in Hx as [Hx|(p & Hp & Hend)].
      * rewrite Hx. destruct (Z.max_spec cur e) as [[_ ->]|[_ ->]]; [|by left].
        right. exists (s, e). split; [left|done].
      * right. exists p. split; [by right|done].
Qed.

(** Periods with the same start, none ending before it begins: only the
    first can have a slot before it. *)
Lemma emitted_group dm s g cur :
  0 < dm →
  Forall (λ p, fst p = s ∧ s <= snd p) g →
  emitted dm g cur =
    match g with
    | [] => []
    | _ => if cur + Datetime.timedelta_minutes dm <=? s
           then [slot_at cur dm] else []
    end.
Proof.
  intros Hdm Hg. revert cur.
  induction Hg as [|[s' e] g [Hs He] Hg IH]; intros cur; simpl in *; [done|].
  subst s'. rewrite IH. destruct g as [|q g]; [by rewrite app_nil_r|].
  destruct (Z.leb_spec (Z.max cur e + Datetime.timedelta_minutes dm) s) as [Hgap|_].
  - unfold Datetime.timedelta_minutes in Hgap. lia.
  - by rewrite app_nil_r.
Qed.

(** Two sorted arrangements of the same well-formed periods give the same
    slots. *)
Lemma emitted_sorted_perm dm l1 l2 cur :
  0 < dm →
  StronglySorted start_le l1 → StronglySorted start_le l2 →
  Forall well_formed l1 → l1 ≡ₚ l2 →
  emitted dm l1 cur = emitted dm l2 cur.
Proof.
  intros Hdm Hs1. revert l2 cur.
  induction Hs1 as [|[s e] l1 Hs1 IH Hhd]; intros l2 cur Hs2 Hwf Hp.
  - by apply Permutation_nil_l in Hp as ->.
  - apply Forall_cons in Hwf as [Hse Hwf]. unfold well_formed in Hse. simpl in Hse.
    assert ((s, e) ∈ l2) as Hin by (rewrite <- Hp; left).
    apply list_elem_of_split in Hin as (g & r & ->).
    apply Permutation_cons_app_inv in Hp.
    pose proof Hs2 as Hs2'.
    apply StronglySorted_app in Hs2' as (Hgr & Hsg & Hsr).
    apply StronglySorted_cons in Hsr as [Hr Hsr].
    assert (StronglySorted start_le (g ++ r)) as Hs2''.
    { apply StronglySorted_app_2; [|done..].
      intros x y Hx Hy. apply Hgr; [done|by right]. }
    assert (Forall (λ p, fst p = s ∧ s <= snd p) g) as Hg.
    { apply Forall_forall. intros q Hq.
      assert (fst q <= s) by (apply (Hgr q (s, e)); [done|left]).
      assert (q ∈ l1) as Hq1 by (rewrite Hp; apply elem_of_app; by left).
      rewrite Forall_forall in Hhd, Hwf.
      pose proof (Hhd q Hq1) as Hle. pose proof (Hwf q Hq1) as Hq2.
      unfold start_le in Hle. unfold well_formed in Hq2. simpl in Hle. lia. }
    rewrite emitted_app. cbn [emitted].
    rewrite (IH (g ++ r) (Z.max cur e) Hs2'' Hwf Hp), emitted_app.
    rewrite !(emitted_group dm s g) by done.
    rewrite cursor_max. destruct g as [|q g]; simpl; [done|].
    apply Forall_cons in Hg as [[Hq1 Hq2] _].
    pose proof (cursor_ge g (Z.max cur (snd q))) as Hc.
    destruct q as [sq eq_]. simpl in *.
    destruct (Z.leb_spec (Z.max cur e + Datetime.timedelta_minutes dm) s) as [Hgap|_].
    { unfold Datetime.timedelta_minutes in Hgap. lia. }
    destruct (Z.leb_spec (cursor g (Z.max cur eq_) + Datetime.timedelta_minutes dm) s)
      as [Hgap|_].
    { unfold Datetime.timedelta_minutes in Hgap. lia. }
    done.
Qed.

(** A free gap is met by a slot of the loop, or the cursor ends by it. *)
Lemma emitted_or_cursor dm l cur t :
  cur <= t →
  (∀ p, p ∈ l → ¬ (t < snd p ∧ fst p < t + Datetime.timedelta_minutes dm)) →
  (∃ x, x ∈ emitted dm l cur ∧ slot_start x <= t) ∨ cursor l cur <= t.
Proof.
  revert cur. induction l as [|[s e] l IH]; intros cur Hcur Hfree; simpl; [by right|].
  destruct (Z.leb_spec (cur + Datetime.timedelta_minutes dm) s) as [Hgap|Hno].
  - left. exists (slot_at cur dm). split; [left|done].
  - assert (e <= t) as He.
    { specialize (Hfree (s, e)). simpl in Hfree.
      destruct (decide (t < e)); [|lia]. exfalso. apply Hfree; [left|lia]. }
    destruct (IH (Z.max cur e)) as [(x & Hx & Hxt)|Hc]; [lia| |by left; eauto|by right].
    intros p Hp. apply Hfree. by right.
Qed.

End SweepMore.

(** ** Further properties of the free-slot finder *)

Module SlotExtras.
Import CalendarService SlotSpec Sweep SortFacts SweepFacts PlaceFacts OrderFacts Views.
Import SweepMore Scenario.

(** In exact arithmetic, a free gap of the requested length at [t] gives a
    first slot that begins no later than [t], lies in the window and shares
    no time with a busy period. *)
Lemma first_five_meets_free_gap sod eod busy dm t :
  free_gap sod eod busy dm t →
  ∃ x rest,
    first_five sod eod busy dm = x :: rest ∧
    slot_start x <= t ∧
    within_window sod eod x ∧
    ∀ p, p ∈ busy → ¬ overlaps_busy x p.
Proof.
  intros (Hsod & Heod & Hfree).
  assert (∃ y, y ∈ candidate_slots sod eod busy dm ∧ slot_start y <= t) as (y & Hy & Hyt).
  { rewrite candidate_slots_split.
    destruct (emitted_or_cursor dm (sort_by_start busy) sod t Hsod) as [(y & Hy & Hyt)|Hc].
    - intros p Hp. apply Hfree. by apply elem_of_sort_by_start.
    - exists y. split; [apply elem_of_app; by left|done].
    - exists (slot_at (cursor (sort_by_start busy) sod) dm).
      split; [|done]. apply elem_of_app. right. unfold tail.
      destruct (Z.leb_spec (cursor (sort_by_start busy) sod
                            + Datetime.timedelta_minutes dm) eod); [left|lia]. }
  pose proof (candidate_not_later sod eod busy dm) as Hsorted.
  pose proof (candidate_shape sod eod busy dm) as Hshape.
  pose proof (candidate_start sod eod busy dm) as Hstart.
  pose proof (candidate_no_overlap sod eod busy dm) as Hfree'.
  unfold first_five.
  destruct (candidate_slots sod eod busy dm) as [|x rest]; [by apply elem_of_nil in Hy|].
  exists x, (take 4 rest). split; [done|].
  assert (slot_start x <= t) as Hxt.
  { apply elem_of_cons in Hy as [->|Hy]; [done|].
    apply StronglySorted_cons in Hsorted as [Hhd _].
    rewrite Forall_forall in Hhd. apply Hhd in Hy. unfold not_later in Hy. lia. }
  assert (x ∈ x :: rest) as Hx by left.
  split; [done|]. split; [|intros p Hp; by apply Hfree'].
  split; [by apply Hstart|].
  rewrite (Hshape x Hx). simpl. lia.
Qed.

(** X2: for a positive duration and busy periods that do not end before they
    begin, the result does not depend on the order in which the busy
    periods are listed. *)
Theorem X2_listing_order_irrelevant sod eod busy busy' dm :
  0 < dm →
  Forall well_formed busy →
  busy ≡ₚ busy' →
  first_five sod eod busy dm = first_five sod eod busy' dm.
Proof.
  intros Hdm Hwf Hp. unfold first_five. f_equal.
  assert (sort_by_start busy ≡ₚ sort_by_start busy') as Hp'.
  { by rewrite !sort_by_start_perm. }
  rewrite !candidate_slots_split.
  rewrite (cursor_perm _ _ sod Hp').
  rewrite (emitted_sorted_perm dm (sort_by_start busy) (sort_by_start busy') sod);
    [done|done|apply sort_by_start_sorted..| |done].
  by rewrite sort_by_start_perm.
Qed.

Lemma X2_listing_order_irrelevant_witness :
  first_five (at_ 9 0) (at_ 17 0)
    [(at_ 10 0, at_ 11 0); (at_ 10 0, at_ 12 0); (at_ 9 30, at_ 10 15)] 30
  = first_five (at_ 9 0) (at_ 17 0)
      [(at_ 10 0, at_ 12 0); (at_ 9 30, at_ 10 15); (at_ 10 0, at_ 11 0)] 30.
Proof.
  apply X2_listing_order_irrelevant; [lia| |].
  - repeat constructor; unfold well_formed; by vm_compute.
  - etrans; [apply Permutation_swap|]. apply perm_skip, Permutation_swap.
Defined.

(** X3: every returned slot begins at the start of the window or at the end
    of a busy period. *)
Theorem X3_slots_begin_at_window_or_busy_end sod eod busy dm :
  Forall (λ x, slot_start x = sod ∨ ends_at busy (slot_start x))
    (first_five sod eod busy dm).
Proof.
  apply Forall_forall. intros x Hx. unfold first_five in Hx.
  apply elem_of_take in Hx as (i & Hx%list_elem_of_lookup_2 & _).
  rewrite candidate_slots_split in Hx.
  assert (∀ t, ends_at (sort_by_start busy) t → ends_at busy t) as Hends.
  { intros t (p & Hp & Ht). exists p. split; [|done].
    by apply (proj1 (elem_of_sort_by_start p busy)). }
  apply elem_of_app in Hx as [Hx|Hx].
  - apply emitted_start_or_end in Hx as [?|?]; [by left|right; by apply Hends].
  - apply tail_shape in Hx as (-> & _). simpl.
    destruct (cursor_start_or_end (sort_by_start busy) sod) as [->|?];
      [by left|right; by apply Hends].
Qed.

(** X4: for every input, no returned slot begins before the window and no
    returned slot shares time with a normalized busy period. *)
Theorem X4_slots_not_early_and_free sod eod busy dm :
  Forall (λ x, sod <= slot_start x ∧ ∀ p, p ∈ busy → ¬ overlaps_busy x p)
    (first_five sod eod busy dm).
Proof.
  apply Forall_forall. intros x Hx. unfold first_five in Hx.
  apply elem_of_take in Hx as (i & Hx%list_elem_of_lookup_2 & _).
  split; [by eapply candidate_start|].
  intros p Hp. by eapply candidate_no_overlap.
Qed.

(** X5: when every busy period begins by the end of the window, every
    returned slot lies in the window. *)
Theorem X5_slots_in_window_when_busy_begins_in_time sod eod busy dm :
  (∀ p, p ∈ busy → fst p <= eod) →
  Forall (within_window sod eod) (first_five sod eod busy dm).
Proof.
  intros Hbusy. apply Forall_forall. intros x Hx. unfold first_five in Hx.
  apply elem_of_take in Hx as (i & Hx%list_elem_of_lookup_2 & _).
  by eapply candidate_within_window.
Qed.

Lemma X5_slots_in_window_when_busy_begins_in_time_witness :
  Forall (within_window (at_ 9 0) (at_ 17 0))
    (first_five (at_ 9 0) (at_ 17 0) [(at_ 10 0, at_ 11 0); (at_ 16 30, at_ 18 0)] 60).
Proof.
  apply X5_slots_in_window_when_busy_begins_in_time.
  intros p [->|[->|[]%elem_of_nil]%elem_of_cons]%elem_of_cons; by vm_compute.
Defined.

(** X6: for a positive duration, when a busy period covers the whole window
    and every busy period begins by the end of the window, the finder returns
    no slot. *)
Theorem X6_covered_window_no_slot sod eod busy dm s e :
  0 < dm →
  (s, e) ∈ busy → s <= sod → eod <= e →
  (∀ p, p ∈ busy → fst p <= eod) →
  first_five sod eod busy dm = [].
Proof.
  intros Hdm Hin Hs He Hbusy. unfold first_five.
  destruct (candidate_slots sod eod busy dm) as [|x rest] eqn:Hc; [done|].
  assert (x ∈ candidate_slots sod eod busy dm) as Hx by (rewrite Hc; left).
  pose proof (candidate_within_window sod eod busy dm x Hbusy Hx) as [_ Hend].
  pose proof (SlotFinder.candidate_after_early_period
                sod eod busy dm s e x Hdm Hin Hs Hx) as Hlate.
  rewrite (candidate_shape _ _ _ _ _ Hx) in Hend. simpl in Hend.
  unfold Datetime.timedelta_minutes in Hend. lia.
Qed.

Lemma X6_covered_window_no_slot_witness :
  first_five (at_ 9 0) (at_ 17 0)
    [(at_ 12 0, at_ 13 0); (at_ 8 0, at_ 17 30); (at_ 17 0, at_ 18 0)] 60 = [].
Proof.
  apply (X6_covered_window_no_slot _ _ _ _ (at_ 8 0) (at_ 17 30)); [lia| | | |].
  - right; left.
  - by vm_compute.
  - by vm_compute.
  - intros p [->|[->|[->|[]%elem_of_nil]%elem_of_cons]%elem_of_cons]%elem_of_cons;
      by vm_compute.
Defined.

(** X7: the sort of the busy periods gives the same periods in ascending
    order of start, and periods with equal starts keep their order of arrival. *)
Theorem X7_sort_is_stable_sort busy :
  StronglySorted start_le (sort_by_start busy) ∧
  sort_by_start busy ≡ₚ busy ∧
  ∀ k, filter (λ q, fst q = k) (sort_by_start busy) = filter (λ q, fst q = k) busy.
Proof.
  split; [apply sort_by_start_sorted|]. split; [apply sort_by_start_perm|].
  intros k. apply sort_by_start_stable.
Qed.

End SlotExtras.

(** ** Further properties of the calendar service *)

Module ServiceExtras.
Import CalendarService SlotSpec Views Scenario.

Lemma endswith_app_Z s : Str.endswith "Z" (s +:+ "Z") = true.
Proof.
  induction s as [|a s IH]; [done|].
  change (String a s +:+ "Z") with (String a (s +:+ "Z")).
  destruct s as [|b s]; [done|]. exact IH.
Qed.

Lemma with_Z_endswith s : Str.endswith "Z" (Str.with_Z s) = true.
Proof.
  unfold Str.with_Z. destruct (Str.endswith "Z" s) eqn:Hs; [done|apply endswith_app_Z].
Qed.

Lemma with_Z_idemp s : Str.with_Z (Str.with_Z s) = Str.with_Z s.
Proof. unfold Str.with_Z at 1. by rewrite with_Z_endswith. Qed.

Section Service.
Context {lib : Datetime.Lib} {gw : Gateway}.

Lemma busy_of_events_ok evs acc :
  Forall has_times evs →
  busy_of_events evs acc = Return (acc ++ (busy_view <$> evs)).
Proof.
  intros Hevs. revert acc.
  induction Hevs as [|ev evs [[s Hs] [e He]] _ IH]; intros acc; simpl.
  - by rewrite app_nil_r.
  - unfold busy_of_event. rewrite Hs, He. simpl. rewrite IH.
    unfold busy_view. rewrite Hs, He. simpl. by rewrite <- app_assoc.
Qed.

Lemma busy_of_events_app l1 l2 acc :
  busy_of_events (l1 ++ l2) acc = busy_of_events l1 acc ≫= busy_of_events l2.
Proof.
  revert acc. induction l1 as [|ev l1 IH]; intros acc; simpl; [done|].
  destruct (busy_of_event ev) as [b|e]; simpl; [apply IH|done].
Qed.

Lemma format_events_ok evs acc :
  Forall listable evs →
  format_events evs acc
  = Return (acc ++ ((λ ev, formatted_view ev (default "" (ev_id ev))) <$> evs)).
Proof.
  intros Hevs. revert acc.
  induction Hevs as [|ev evs [[[s Hs] [e He]] [id Hid]] _ IH]; intros acc; simpl.
  - by rewrite app_nil_r.
  - unfold format_event. rewrite Hs. simpl. rewrite He. simpl. rewrite Hid. simpl.
    rewrite IH.
    unfold formatted_view. rewrite Hs, He. simpl. by rewrite <- app_assoc.
Qed.

(** X1: whenever [suggest_time_slots] returns and the window holds a free
    gap of the requested length at [t], the returned list is not empty and
    its first slot is the format of a slot that begins no later than [t],
    lies in the window and shares no time with a normalized busy period. *)
Theorem X1_first_slot_meets_free_gap date dm sh eh slots busy_times sod eod t :
  suggest_time_slots date dm sh eh = Return slots →
  get_busy_times date = Return busy_times →
  day_bounds date sh eh = Return (sod, eod) →
  free_gap sod eod (normalize busy_times) dm t →
  ∃ x rest,
    slots = format_slot x :: rest ∧
    slot_start x <= t ∧
    within_window sod eod x ∧
    ∀ p, p ∈ normalize busy_times → ¬ overlaps_busy x p.
Proof.
  intros Hret Hget Hbounds Hgap.
  unfold suggest_time_slots in Hret. rewrite Hget in Hret. simpl in Hret.
  unfold slots_for in Hret. rewrite Hbounds in Hret. simpl in Hret.
  injection Hret as <-.
  destruct (SlotExtras.first_five_meets_free_gap sod eod (normalize busy_times) dm t Hgap)
    as (x & rest & Hfive & Hx).
  exists x, (format_slot <$> rest). split; [by rewrite Hfive|done].
Qed.

(** X8: [suggest_time_slots] raises, and what it raises is a plain
    [Exception] whose text begins with [Failed to suggest time slots: ],
    when the busy times cannot be fetched, when the date does not parse, and
    when one of the two hours is not between 0 and 23. *)
Theorem X8_suggest_raises_on_bad_input date dm sh eh :
  (∃ e, get_busy_times date = Raise e) ∨
  Datetime.strptime_ymd date = None ∨
  sh < 0 ∨ 23 < sh ∨ eh < 0 ∨ 23 < eh →
  ∃ e, suggest_time_slots date dm sh eh = Raise e ∧
       exc_cls e = Exception_ ∧
       ∃ rest, exc_str e = "Failed to suggest time slots: " +:+ rest.
Proof.
  intros Hbad.
  assert (∃ cause,
            (get_busy_times date ≫= λ busy_times,
               slots_for busy_times date dm sh eh) = Raise cause) as [cause Hcause].
  { unfold slots_for, day_bounds, value_error, Datetime.replace_hour.
    destruct (get_busy_times date) as [busy_times|e0]; simpl; [|by eauto].
    destruct Hbad as [[e0 He0]|Hbad]; [done|].
    destruct (Datetime.strptime_ymd date) as [d|]; simpl; [|by eauto].
    destruct Hbad as [Hd|Hbad]; [done|].
    destruct (Z.leb_spec 0 sh), (Z.leb_spec sh 23); simpl; try by eauto.
    destruct (Z.leb_spec 0 eh), (Z.leb_spec eh 23); simpl; try by eauto.
    lia. }
  unfold suggest_time_slots, except_Exception, raise_Exception. rewrite Hcause.
  eexists. split; [done|]. split; [done|]. by eexists.
Qed.

(** X9: what [suggest_time_slots] raises is the plain [Exception] whose
    text is [Failed to suggest time slots: ] followed by the text of the
    exception that its [try] block raised. *)
Theorem X9_suggest_raises_plain_exception date dm sh eh e :
  suggest_time_slots date dm sh eh = Raise e →
  ∃ cause,
    (get_busy_times date ≫= λ busy_times,
       slots_for busy_times date dm sh eh) = Raise cause ∧
    e = mk_exc Exception_ ("Failed to suggest time slots: " +:+ exc_str cause).
Proof.
  unfold suggest_time_slots, except_Exception, raise_Exception.
  destruct (_ ≫= _) as [slots|cause]; [done|].
  intros [= <-]. by exists cause.
Qed.

(** X10: the slots [suggest_time_slots] returns are the first five of the
    sweep over the normalized busy times between the two hours of the day,
    formatted; there are at most five, each carries the requested duration,
    and its start and end are the formats of two instants that duration
    apart. *)
Theorem X10_suggest_result date dm sh eh slots :
  suggest_time_slots date dm sh eh = Return slots →
  (∃ busy_times day,
      get_busy_times date = Return busy_times ∧
      Datetime.strptime_ymd date = Some day ∧
      slots = format_slot <$>
                first_five (86400 * (day / 86400) + 3600 * sh)
                           (86400 * (day / 86400) + 3600 * eh)
                           (normalize busy_times) dm) ∧
  (length slots <= 5)%nat ∧
  Forall (λ sd,
            sd_duration_minutes sd = dm ∧
            ∃ t, sd_start sd = Datetime.strftime t ∧
                 sd_end sd = Datetime.strftime (t + Datetime.timedelta_minutes dm))
         slots.
Proof.
  unfold suggest_time_slots, slots_for, day_bounds, value_error, Datetime.replace_hour.
  destruct (get_busy_times date) as [busy_times|e]; simpl; [|done].
  destruct (Datetime.strptime_ymd date) as [day|]; simpl; [|done].
  destruct ((0 <=? sh) && (sh <=? 23)); simpl; [|done].
  destruct ((0 <=? eh) && (eh <=? 23)); simpl; [|done].
  intros [= <-]. split; [by exists busy_times, day|]. split.
  - rewrite length_fmap. unfold first_five. rewrite length_take. lia.
  - apply Forall_fmap, Forall_forall. intros x Hx. unfold first_five in Hx.
    apply elem_of_take in Hx as (i & Hx%list_elem_of_lookup_2 & _).
    apply PlaceFacts.candidate_shape in Hx. rewrite Hx. simpl.
    split; [done|]. by exists (slot_start x).
Qed.

(** X11: when every listed event carries its start and its end,
    [get_busy_times] returns one entry per event, in the order of the
    listing: the [dateTime] if there is one, else the [date]; the summary,
    else [Busy]. *)
Theorem X11_busy_times_of_listing date r :
  events_list {| timeMin := date +:+ "T00:00:00Z";
                 timeMax := Some (date +:+ "T23:59:59Z");
                 maxResults := None |} = Return r →
  Forall has_times (default [] (items r)) →
  get_busy_times date = Return (busy_view <$> default [] (items r)).
Proof.
  intros Hlist Hevs. unfold get_busy_times. rewrite Hlist. simpl.
  by rewrite busy_of_events_ok.
Qed.

(** X12: a listed event without [start] makes [get_busy_times] raise the
    [KeyError] itself, and [suggest_time_slots] report it as a plain
    [Exception]. *)
Theorem X12_event_without_start date dm sh eh r good bad rest :
  events_list {| timeMin := date +:+ "T00:00:00Z";
                 timeMax := Some (date +:+ "T23:59:59Z");
                 maxResults := None |} = Return r →
  default [] (items r) = good ++ bad :: rest →
  Forall has_times good →
  ev_start bad = None →
  get_busy_times date = Raise (mk_exc KeyError "'start'") ∧
  suggest_time_slots date dm sh eh
    = raise_Exception "Failed to suggest time slots: 'start'".
Proof.
  intros Hlist Hitems Hgood Hbad.
  assert (get_busy_times date = Raise (mk_exc KeyError "'start'")) as Hget.
  { unfold get_busy_times. rewrite Hlist. simpl. rewrite Hitems.
    rewrite busy_of_events_app, busy_of_events_ok by done. simpl.
    unfold busy_of_event. by rewrite Hbad. }
  split; [done|]. unfold suggest_time_slots. by rewrite Hget.
Qed.

(** X13: when the listing fails, [get_busy_times] turns an [HttpError] into
    a plain [Exception] with the text [Failed to get busy times: ] before the
    text of the error, and lets any other exception through unchanged. *)
Theorem X13_busy_times_backend_failure date e :
  events_list {| timeMin := date +:+ "T00:00:00Z";
                 timeMax := Some (date +:+ "T23:59:59Z");
                 maxResults := None |} = Raise e →
  get_busy_times date
  = Raise (if is_HttpError e
           then mk_exc Exception_ ("Failed to get busy times: " +:+ exc_str e)
           else e).
Proof.
  intros Hlist. unfold get_busy_times. rewrite Hlist. simpl.
  by destruct (is_HttpError e).
Qed.

(** X14: [check_availability] gives the same answer whether or not the two
    timestamps already end in [Z]; what it sends always ends in [Z]. *)
Theorem X14_availability_ignores_trailing_Z start_time end_time :
  check_availability (Str.with_Z start_time) (Str.with_Z end_time)
  = check_availability start_time end_time ∧
  Str.endswith "Z" (Str.with_Z start_time) = true ∧
  Str.endswith "Z" (Str.with_Z end_time) = true.
Proof.
  split; [|split; apply with_Z_endswith].
  unfold check_availability. by rewrite !with_Z_idemp.
Qed.

(** X15: [create_event] returns exactly when the insertion of the event
    body (timestamps ending in [Z], attendees only for a non-empty e-mail)
    returns an event with [id], [summary], [start.dateTime], [end.dateTime]
    and [status]; it returns these, and the link or an empty text. *)
Theorem X15_create_event_returns summary start_time end_time description attendee_email ce :
  create_event summary start_time end_time description attendee_email = Return ce ↔
  ∃ ev s e,
    events_insert
      {| body_summary := summary;
         body_description := description;
         body_start := Str.with_Z start_time;
         body_end := Str.with_Z end_time;
         body_attendees :=
           if String.eqb attendee_email "" then None else Some [attendee_email] |}
      = Return ev ∧
    ev_id ev = Some (ce_id ce) ∧
    ev_summary ev = Some (ce_summary ce) ∧
    ev_start ev = Some s ∧ dateTime s = Some (ce_start ce) ∧
    ev_end ev = Some e ∧ dateTime e = Some (ce_end ce) ∧
    ev_status ev = Some (ce_status ce) ∧
    ce_html_link ce = default "" (ev_htmlLink ev).
Proof.
  unfold create_event, except_HttpError, getitem.
  set (body := {| body_summary := summary |}).
  split.
  - intros H. destruct (events_insert body) as [ev|err] eqn:Hins; simpl in H.
    2: { by destruct (is_HttpError err). }
    exists ev.
    destruct (ev_id ev) as [id|]; simpl in H; [|done].
    destruct (ev_summary ev) as [sm|]; simpl in H; [|done].
    destruct (ev_start ev) as [s|]; simpl in H; [|done].
    destruct (dateTime s) as [sdt|] eqn:Hs; simpl in H; [|done].
    destruct (ev_end ev) as [e|]; simpl in H; [|done].
    destruct (dateTime e) as [edt|] eqn:He; simpl in H; [|done].
    destruct (ev_status ev) as [st|]; simpl in H; [|done].
    injection H as <-. by exists s, e.
  - intros (ev & s & e & Hins & Hid & Hsm & Hs & Hsdt & He & Hedt & Hst & Hlink).
    rewrite Hins. simpl. rewrite Hid, Hsm, Hs. simpl. rewrite Hsdt, He. simpl.
    rewrite Hedt, Hst. simpl. rewrite <- Hlink. by destruct ce.
Qed.

(** X16: when every listed event carries its start, its end and its [id],
    [get_events] returns one entry per event, in the order of the listing,
    with [No Title], an empty description and [confirmed] where the event
    has none. *)
Theorem X16_upcoming_events_of_listing max_results r :
  events_list {| timeMin := utcnow_isoformat +:+ "Z";
                 timeMax := None;
                 maxResults := Some max_results |} = Return r →
  Forall listable (default [] (items r)) →
  get_events max_results
  = Return ((λ ev, formatted_view ev (default "" (ev_id ev))) <$> default [] (items r)).
Proof.
  intros Hlist Hevs. unfold get_events. rewrite Hlist. simpl.
  by rewrite format_events_ok.
Qed.

End Service.

End ServiceExtras.

(** ** The service on concrete calendars *)

Module ServiceWitnesses.
Import CalendarService SlotSpec Views Scenario ChatScenario ServiceExtras.

Lemma X1_first_slot_meets_free_gap_witness :
  let events := [timed "2024-01-15T10:00:00Z" "2024-01-15T11:00:00Z"] in
  let slots :=
    [ {| sd_start := "2024-01-15T09:00:00"; sd_end := "2024-01-15T10:00:00";
         sd_duration_minutes := 60 |};
      {| sd_start := "2024-01-15T11:00:00"; sd_end := "2024-01-15T12:00:00";
         sd_duration_minutes := 60 |} ] in
  ∃ x rest,
    slots = @format_slot Datetime.iso x :: rest ∧
    slot_start x <= at_ 11 30 ∧
    within_window (at_ 9 0) (at_ 17 0) x ∧
    ∀ p, p ∈ @normalize Datetime.iso (busy_view <$> events) → ¬ overlaps_busy x p.
Proof.
  intros events slots.
  apply (@X1_first_slot_meets_free_gap Datetime.iso (calendar events)
           "2024-01-15" 60 9 17 slots (busy_view <$> events)
           (at_ 9 0) (at_ 17 0) (at_ 11 30));
    [by vm_compute|by vm_compute|by vm_compute|].
  split; [by vm_compute|]. split; [by vm_compute|].
  intros p Hp [Hlt _]. vm_compute in Hp.
  apply list_elem_of_singleton in Hp as ->.
  vm_compute in Hlt. discriminate Hlt.
Defined.

Lemma X8_suggest_raises_on_bad_input_witness :
  ∃ e, @suggest_time_slots Datetime.iso (calendar []) "2024-01-15" 60 9 24 = Raise e ∧
       exc_cls e = Exception_ ∧
       ∃ rest, exc_str e = "Failed to suggest time slots: " +:+ rest.
Proof.
  apply (@X8_suggest_raises_on_bad_input Datetime.iso (calendar []) "2024-01-15" 60 9 24).
  do 5 right. lia.
Defined.

Lemma X9_suggest_raises_plain_exception_witness :
  ∃ cause,
    (@get_busy_times broken "2024-01-15" ≫= λ busy_times,
       @slots_for Datetime.iso busy_times "2024-01-15" 60 9 17) = Raise cause ∧
    mk_exc Exception_
      "Failed to suggest time slots: Failed to get busy times: 503 Service Unavailable"
    = mk_exc Exception_ ("Failed to suggest time slots: " +:+ exc_str cause).
Proof.
  apply (@X9_suggest_raises_plain_exception Datetime.iso broken "2024-01-15" 60 9 17).
  by vm_compute.
Defined.

Lemma X10_suggest_result_witness :
  let gw := calendar [timed "2024-01-15T10:00:00Z" "2024-01-15T11:00:00Z"] in
  let slots :=
    [ {| sd_start := "2024-01-15T09:00:00"; sd_end := "2024-01-15T10:00:00";
         sd_duration_minutes := 60 |};
      {| sd_start := "2024-01-15T11:00:00"; sd_end := "2024-01-15T12:00:00";
         sd_duration_minutes := 60 |} ] in
  (∃ busy_times day,
      @get_busy_times gw "2024-01-15" = Return busy_times ∧
      Datetime.iso_strptime_ymd "2024-01-15" = Some day ∧
      slots = @format_slot Datetime.iso <$>
                first_five (86400 * (day / 86400) + 3600 * 9)
                           (86400 * (day / 86400) + 3600 * 17)
                           (@normalize Datetime.iso busy_times) 60) ∧
  (length slots <= 5)%nat ∧
  Forall (λ sd,
            sd_duration_minutes sd = 60 ∧
            ∃ t, sd_start sd = Datetime.iso_strftime t ∧
                 sd_end sd = Datetime.iso_strftime (t + Datetime.timedelta_minutes 60))
         slots.
Proof.
  intros gw slots.
  apply (@X10_suggest_result Datetime.iso gw "2024-01-15" 60 9 17 slots).
  by vm_compute.
Defined.

Lemma X11_busy_times_of_listing_witness :
  let events := [timed "2024-01-15T10:00:00Z" "2024-01-15T11:00:00Z";
                 whole_day "2024-01-15" "2024-01-16"] in
  @get_busy_times (calendar events) "2024-01-15" = Return (busy_view <$> events).
Proof.
  intros events.
  apply (@X11_busy_times_of_listing (calendar events) "2024-01-15"
           {| items := Some events |}); [reflexivity|].
  repeat constructor; simpl; eauto.
Defined.

Lemma X12_event_without_start_witness :
  let gw := calendar [timed "2024-01-15T10:00:00Z" "2024-01-15T11:00:00Z";
                      without_start;
                      timed "2024-01-15T12:00:00Z" "2024-01-15T13:00:00Z"] in
  @get_busy_times gw "2024-01-15" = Raise (mk_exc KeyError "'start'") ∧
  @suggest_time_slots Datetime.iso gw "2024-01-15" 60 9 17
    = raise_Exception "Failed to suggest time slots: 'start'".
Proof.
  intros gw.
  apply (@X12_event_without_start Datetime.iso gw "2024-01-15" 60 9 17
           {| items := Some [timed "2024-01-15T10:00:00Z" "2024-01-15T11:00:00Z";
                             without_start;
                             timed "2024-01-15T12:00:00Z" "2024-01-15T13:00:00Z"] |}
           [timed "2024-01-15T10:00:00Z" "2024-01-15T11:00:00Z"]
           without_start
           [timed "2024-01-15T12:00:00Z" "2024-01-15T13:00:00Z"]);
    [reflexivity|reflexivity| |reflexivity].
  repeat constructor; simpl; eauto.
Defined.

Lemma X13_busy_times_backend_failure_witness :
  @get_busy_times broken "2024-01-15"
  = Raise (mk_exc Exception_ "Failed to get busy times: 503 Service Unavailable").
Proof.
  apply (@X13_busy_times_backend_failure broken "2024-01-15"
           (mk_exc HttpError "503 Service Unavailable")).
  reflexivity.
Defined.

Lemma X16_upcoming_events_of_listing_witness :
  let events := [timed "2024-01-15T10:00:00Z" "2024-01-15T11:00:00Z";
                 whole_day "2024-01-16" "2024-01-17"] in
  @get_events (calendar events) 10
  = Return ((λ ev, formatted_view ev (default "" (ev_id ev))) <$> events).
Proof.
  intros events.
  apply (@X16_upcoming_events_of_listing (calendar events) 10
           {| items := Some events |}); [reflexivity|].
  repeat constructor; simpl; eauto.
Defined.

End ServiceWitnesses.

(** ** Whole-day events, seen from the calendar *)

Module WholeDay.
Import CalendarService SlotSpec Views Scenario ServiceExtras.

Section WholeDay.
Context {lib : Datetime.Lib}.

Lemma busy_of_events_acc evs acc :
  busy_of_events evs acc
  = match busy_of_events evs [] with
    | Return r => Return (acc ++ r)
    | Raise e => Raise e
    end.
Proof.
  revert acc. induction evs as [|ev evs IH]; intros acc; simpl.
  - by rewrite app_nil_r.
  - destruct (busy_of_event ev) as [b|e]; simpl; [|done].
    rewrite (IH (acc ++ [b])), (IH [b]).
    destruct (busy_of_events evs []) as [r|e]; [|done].
    by rewrite <- app_assoc.
Qed.

Lemma whole_days_malformed ev : whole_days ev → malformed (busy_view ev) = true.
Proof.
  intros (s & e & ds & Hs & He & Hdt & Hd & HT).
  unfold malformed, all_day, busy_view. simpl. rewrite Hs. simpl.
  unfold dateTime_or_date. rewrite Hdt, Hd, HT. done.
Qed.

(** X17: an event of whole days in the calendar changes nothing in what
    [suggest_time_slots] returns or raises. *)
Theorem X17_whole_day_event_ignored l1 ev l2 date dm sh eh :
  whole_days ev →
  @suggest_time_slots lib (calendar (l1 ++ ev :: l2)) date dm sh eh
  = @suggest_time_slots lib (calendar (l1 ++ l2)) date dm sh eh.
Proof.
  intros Hev. pose proof (whole_days_malformed ev Hev) as Hbad.
  destruct Hev as (s & e & ds & Hs & He & _).
  unfold suggest_time_slots, get_busy_times. simpl.
  rewrite !busy_of_events_app.
  destruct (busy_of_events l1 []) as [b1|err]; simpl; [|done].
  unfold busy_of_event at 1. rewrite Hs, He. simpl.
  fold (busy_view ev).
  replace {| b_start := dateTime_or_date s; b_end := dateTime_or_date e;
             b_summary := default "Busy" (ev_summary ev) |}
    with (busy_view ev) by (unfold busy_view; by rewrite Hs, He).
  rewrite (busy_of_events_acc l2 (b1 ++ [busy_view ev])), (busy_of_events_acc l2 b1).
  destruct (busy_of_events l2 []) as [b2|err]; simpl; [|done].
  unfold slots_for.
  apply SlotFinder.malformed_dropped in Hbad.
  by rewrite !SlotFinder.normalize_app, Hbad, app_nil_r.
Qed.

End WholeDay.

Lemma X17_whole_day_event_ignored_witness :
  @suggest_time_slots Datetime.iso
     (calendar ([timed "2024-01-15T10:00:00Z" "2024-01-15T11:00:00Z"]
                ++ whole_day "2024-01-15" "2024-01-16"
                :: [timed "2024-01-15T12:00:00Z" "2024-01-15T13:00:00Z"]))
     "2024-01-15" 60 9 17
  = @suggest_time_slots Datetime.iso
     (calendar ([timed "2024-01-15T10:00:00Z" "2024-01-15T11:00:00Z"]
                ++ [timed "2024-01-15T12:00:00Z" "2024-01-15T13:00:00Z"]))
     "2024-01-15" 60 9 17.
Proof.
  apply X17_whole_day_event_ignored.
  exists {| dateTime := None; date := Some "2024-01-15" |},
         {| dateTime := None; date := Some "2024-01-16" |}, "2024-01-15".
  repeat split.
Defined.

End WholeDay.

(** ** Further properties of the agent *)

Module AgentExtras.
Import CalendarService CalendarAIAgent Conversation Scenario ChatScenario.

Section Agent.
Context {lib : Datetime.Lib} {gw : Gateway}.

(** [_execute_function] itself never raises. *)
Lemma execute_function_returns function_name arguments :
  ∃ d, _execute_function function_name arguments = Return d.
Proof.
  unfold _execute_function.
  destruct (execute_body function_name arguments); simpl; eauto.
Qed.

(** X18: the optional arguments have the defaults 60, 9, 17 and 10: without
    them the actions [suggest_time_slots] and [get_upcoming_events] do what
    they do with these values given. *)
Theorem X18_optional_arguments_default arguments :
  arguments !! "duration_minutes" = None →
  arguments !! "preferred_start_hour" = None →
  arguments !! "preferred_end_hour" = None →
  arguments !! "max_results" = None →
  _execute_function "suggest_time_slots" arguments
  = _execute_function "suggest_time_slots"
      (<["duration_minutes" := VInt 60]>
         (<["preferred_start_hour" := VInt 9]>
            (<["preferred_end_hour" := VInt 17]> arguments))) ∧
  _execute_function "get_upcoming_events" arguments
  = _execute_function "get_upcoming_events" (<["max_results" := VInt 10]> arguments).
Proof.
  intros Hd Hs He Hm. unfold _execute_function, execute_body. simpl String.eqb.
  unfold arg, arg_get.
  set (given := <["duration_minutes" := VInt 60]>
                  (<["preferred_start_hour" := VInt 9]>
                     (<["preferred_end_hour" := VInt 17]> arguments))).
  assert (given !! "date" = arguments !! "date") as ->.
  { unfold given. by rewrite !lookup_insert_ne. }
  assert (given !! "duration_minutes" = Some (VInt 60)) as ->.
  { unfold given. by rewrite lookup_insert_eq. }
  assert (given !! "preferred_start_hour" = Some (VInt 9)) as ->.
  { unfold given. rewrite lookup_insert_ne by done. apply lookup_insert_eq. }
  assert (given !! "preferred_end_hour" = Some (VInt 17)) as ->.
  { unfold given. rewrite !lookup_insert_ne by done. apply lookup_insert_eq. }
  by rewrite lookup_insert_eq, Hd, Hs, He, Hm.
Qed.

(** X19: when the first required argument of an action is missing, the
    action is reported as failed with the name of the key in quotes as the
    error, and the calendar is not asked. *)
Theorem X19_missing_required_argument function_name key arguments :
  (function_name, key) ∈ [("check_availability", "start_time");
                          ("suggest_time_slots", "date");
                          ("create_appointment", "summary")] →
  arguments !! key = None →
  _execute_function function_name arguments
  = Return (failure_dict ("'" +:+ key +:+ "'")).
Proof.
  intros Hin Hkey.
  repeat (apply elem_of_cons in Hin as [[= -> ->]|Hin]);
    [..|by apply elem_of_nil in Hin];
    unfold _execute_function, execute_body; simpl String.eqb;
    unfold arg; by rewrite Hkey.
Qed.

Context {client : Client}.

(** X20: [process_message] always returns a dictionary and raises nothing:
    with [success] true, a response and at most one function call, or with
    [success] false, the text of the error and an apology that quotes it. *)
Theorem X20_process_message_returns user_message conversation_history :
  ∃ d, process_message user_message conversation_history = Return d ∧
    ((d !! "success" = Some (VBool true) ∧
      (∃ response, d !! "response" = Some response) ∧
      ∃ calls, d !! "function_calls" = Some (VList calls) ∧ (length calls <= 1)%nat) ∨
     (d !! "success" = Some (VBool false) ∧
      ∃ error,
        d !! "error" = Some (VStr error) ∧
        d !! "response"
        = Some (VStr ("I apologize, but I encountered an error: " +:+ error
                      +:+ ". Please try again.")))).
Proof.
  unfold process_message.
  destruct (process_body user_message conversation_history) as [d|e] eqn:Hbody; simpl.
  - exists d. split; [done|]. left.
    unfold process_body, with_function_call, mbind, result_bind, bind, mret, result_ret
      in Hbody.
    destruct (chat_create _ true) as [message|]; [|done].
    destruct (match msg_function_call message with Some _ => _ | None => _ end)
      as [[final_content function_results]|] eqn:Hcall; [|done].
    injection Hbody as <-.
    assert (length function_results <= 1)%nat as Hlen.
    { step_binds Hcall; simpl; lia. }
    rewrite lookup_insert_eq. split; [done|].
    rewrite lookup_insert_ne, lookup_insert_eq by done. split; [by eauto|].
    rewrite !lookup_insert_ne, lookup_insert_eq by done. by eauto.
  - eexists. split; [done|]. right.
    rewrite lookup_insert_eq. split; [done|]. exists (exc_str e).
    rewrite lookup_insert_ne, lookup_insert_eq by done. split; [done|].
    by rewrite !lookup_insert_ne, lookup_insert_eq by done.
Qed.

(** X21: when the model asks for an action, the arguments decode and the
    model answers the second request, the turn succeeds whatever the action
    gave: the response is the second answer and the one function call
    carries the dictionary the action returned, also when it reports a
    failure. *)
Theorem X21_action_outcome_is_relayed user_message conversation_history
    message fc function_args final_message :
  chat_create
    (plain_message "system" (Some (system_prompt now_ymd))
     :: conversation_history ++ [plain_message "user" (Some user_message)]) true
    = Return message →
  msg_function_call message = Some fc →
  json_loads (fc_arguments fc) = Return function_args →
  (∀ messages, chat_create messages false = Return final_message) →
  ∃ result_,
    execute_value (fc_name fc) function_args = Return result_ ∧
    process_message user_message conversation_history
    = Return (<["success" := VBool true]>
                (<["response" := opt_str (msg_content final_message)]>
                   (<["function_calls" :=
                        VList [VDict [("function", VStr (fc_name fc));
                                      ("arguments", function_args);
                                      ("result", VDict (map_to_list result_))]]]>
                      (<["raw_message" := value_of_message message]> ∅)))).
Proof.
  intros Hfirst Hcall Hargs Hsecond.
  assert (∃ result_, execute_value (fc_name fc) function_args = Return result_)
    as [result_ Hexec].
  { unfold execute_value. destruct function_args; try apply execute_function_returns.
    all: unfold execute_no_dict;
      destruct (_ || _); simpl; eauto;
      destruct (String.eqb _ _); simpl; eauto. }
  exists result_. split; [done|].
  unfold process_message, process_body. rewrite Hfirst. simpl. rewrite Hcall.
  unfold with_function_call. rewrite Hargs. simpl. rewrite Hexec. simpl.
  by rewrite Hsecond.
Qed.

End Agent.

Lemma X18_optional_arguments_default_witness :
  let arguments : gmap string value := <["date" := VStr "2024-01-15"]> ∅ in
  @_execute_function Datetime.iso (calendar []) "suggest_time_slots" arguments
  = @_execute_function Datetime.iso (calendar []) "suggest_time_slots"
      (<["duration_minutes" := VInt 60]>
         (<["preferred_start_hour" := VInt 9]>
            (<["preferred_end_hour" := VInt 17]> arguments))) ∧
  @_execute_function Datetime.iso (calendar []) "get_upcoming_events" arguments
  = @_execute_function Datetime.iso (calendar []) "get_upcoming_events"
      (<["max_results" := VInt 10]> arguments).
Proof.
  intros arguments.
  apply (@X18_optional_arguments_default Datetime.iso (calendar []) arguments);
    reflexivity.
Defined.

Lemma X19_missing_required_argument_witness :
  @_execute_function Datetime.iso broken "suggest_time_slots"
    (<["duration_minutes" := VInt 30]> ∅)
  = Return (failure_dict ("'" +:+ "date" +:+ "'")).
Proof.
  apply (@X19_missing_required_argument Datetime.iso broken
           "suggest_time_slots" "date"); [right; left|reflexivity].
Defined.

Lemma X21_action_outcome_is_relayed_witness :
  let fc := {| fc_name := "check_availability"; fc_arguments := "{}" |} in
  let client := scripted (Some fc) (Return (VDict [])) "That time is not known." in
  let message := {| msg_content := None; msg_function_call := Some fc |} in
  ∃ result_,
    @execute_value Datetime.iso broken "check_availability" (VDict []) = Return result_ ∧
    @process_message Datetime.iso broken client "Am I free at 10?" []
    = Return (<["success" := VBool true]>
                (<["response" := VStr "That time is not known."]>
                   (<["function_calls" :=
                        VList [VDict [("function", VStr "check_availability");
                                      ("arguments", VDict []);
                                      ("result", VDict (map_to_list result_))]]]>
                      (<["raw_message" := value_of_message message]> ∅)))).
Proof.
  intros fc client message.
  apply (@X21_action_outcome_is_relayed Datetime.iso broken client
           "Am I free at 10?" [] message fc (VDict [])
           {| msg_content := Some "That time is not known.";
              msg_function_call := None |});
    reflexivity.
Defined.

End AgentExtras.
